(** * clustering.py: clustering 2-D points with a discrete quadratic model

    A shallow embedding of [clustering.py].  The script turns a list of
    points into a discrete quadratic model (one variable per point, three
    cases per variable, one quadratic bias per pair of points and pair of
    cases), hands the model to the Leap hybrid sampler and plots the best
    sample.

    Numbers.  Python floats are read as real numbers ([R]); [math.sqrt],
    [math.cos], [math.tanh] and [math.pi] are the functions and the constant
    of the Standard Library's [Reals].  Rounding, infinities and NaN are
    outside this model.

    Effects.  Calls that leave the script (the sampler, the plotting helpers
    of [utilities], [print]) are recorded as a trace of events; the answers
    of the sampler are an input of the model, and an exception raised by the
    client library stops the run. *)

From Stdlib Require Import Reals Lra Lia String Bool Arith List.
Import ListNotations.

Local Open Scope R_scope.

(** ** Python helpers *)

(** [enumerate(l)]: the elements of [l] with their index. *)
Definition enumerate {A : Type} (l : list A) : list (nat * A) :=
  combine (seq 0 (length l)) l.

(** [range(a, b)]. *)
Definition range (a b : nat) : list nat := seq a (b - a).

(** [max(a, b)] on two numbers: Python keeps the first argument unless the
    second is strictly greater. *)
Definition py_max (a b : R) : R := if Rlt_dec a b then b else a.

(** ** Coordinates and distances *)

Record Coordinate : Type := mkCoordinate { x : R; y : R }.

Definition get_distance (coordinate_0 coordinate_1 : Coordinate) : R :=
  let diff_x := x coordinate_0 - x coordinate_1 in
  let diff_y := y coordinate_0 - y coordinate_1 in
  sqrt (diff_x ^ 2 + diff_y ^ 2).

(** The inner loop of [get_max_distance]: [for coord1 in coordinates[i+1:]]. *)
Definition max_distance_from (coord0 : Coordinate) (rest : list Coordinate)
    (max_distance : R) : R :=
  fold_left (fun max_distance coord1 =>
               let distance := get_distance coord0 coord1 in
               py_max max_distance distance)
            rest max_distance.

Definition get_max_distance (coordinates : list Coordinate) : R :=
  fold_left (fun max_distance '(i, coord0) =>
               max_distance_from coord0 (skipn (i + 1) coordinates) max_distance)
            (enumerate (removelast coordinates)) 0.

(** [coordinates = [Coordinate(x, y) for x, y in scattered_points]]. *)
Definition to_coordinates (scattered_points : list (R * R)) : list Coordinate :=
  map (fun '(px, py) => mkCoordinate px py) scattered_points.

(** [max_distance = max(get_max_distance(coordinates), 1)], the scaling
    factor of [cluster_points]. *)
Definition cluster_max_distance (coordinates : list Coordinate) : R :=
  py_max (get_max_distance coordinates) 1.

(** ** The discrete quadratic model

    [dimod.DiscreteQuadraticModel] belongs to an external library.  The model
    object is represented by what the script does to it: the variables it
    adds (each with its number of cases, labelled 0, 1, ... in the order
    added) and the quadratic biases it sets, oldest first. *)

(** [(u, u_case, v, v_case)]. *)
Definition interaction : Type := (nat * nat * nat * nat)%type.

Record DiscreteQuadraticModel : Type := mkDQM {
  variables : list nat;
  quadratic : list (interaction * R)
}.

Definition empty_dqm : DiscreteQuadraticModel := mkDQM [] [].

Definition add_variable (num_cases : nat) (dqm : DiscreteQuadraticModel)
    : DiscreteQuadraticModel :=
  mkDQM (variables dqm ++ [num_cases]) (quadratic dqm).

Definition set_quadratic_case (u u_case v v_case : nat) (bias : R)
    (dqm : DiscreteQuadraticModel) : DiscreteQuadraticModel :=
  mkDQM (variables dqm) (quadratic dqm ++ [((u, u_case, v, v_case), bias)]).

Definition interaction_eqb (a b : interaction) : bool :=
  let '(u, uc, v, vc) := a in
  let '(u', uc', v', vc') := b in
  ((u =? u') && (uc =? uc') && (v =? v') && (vc =? vc'))%nat.

(** The entries of one interaction. *)
Definition picks (k : interaction) (e : interaction * R) : bool :=
  interaction_eqb (fst e) k.

(** The biases set for one interaction, oldest first. *)
Definition biases_set (k : interaction) (dqm : DiscreteQuadraticModel) : list R :=
  map snd (filter (picks k) (quadratic dqm)).

(** The bias the model holds for an interaction: the last one set. *)
Definition get_quadratic_case (u u_case v v_case : nat)
    (dqm : DiscreteQuadraticModel) : option R :=
  match rev (biases_set (u, u_case, v, v_case) dqm) with
  | [] => None
  | bias :: _ => Some bias
  end.

(** ** Building the model (the first half of [cluster_points]) *)

(** [for coord in coordinates: dqm.add_variable(3)]. *)
Definition add_variables (coordinates : list Coordinate)
    (dqm : DiscreteQuadraticModel) : DiscreteQuadraticModel :=
  fold_left (fun dqm _ => add_variable 3 dqm) coordinates dqm.

(** First pair of loops: close together points are biased to share a
    colour.  [coordinates[j]] is read with [j] in [range(i+1, len(coordinates))],
    always inside the list, so the default of [nth] is never returned. *)
Definition bias_same_color (coordinates : list Coordinate) (max_distance : R)
    (dqm : DiscreteQuadraticModel) : DiscreteQuadraticModel :=
  fold_left (fun dqm '(i, coord0) =>
    fold_left (fun dqm j =>
      let coord1 := nth j coordinates coord0 in
      let d := get_distance coord0 coord1 / max_distance in
      let weight := - cos (d * PI) in
      fold_left (fun dqm icolor =>
                   set_quadratic_case i icolor j icolor weight dqm)
                (range 0 3) dqm)
      (range (i + 1) (length coordinates)) dqm)
    (enumerate (removelast coordinates)) dqm.

(** Second pair of loops: far away points are biased to have different
    colours. *)
Definition bias_different_color (coordinates : list Coordinate) (max_distance : R)
    (dqm : DiscreteQuadraticModel) : DiscreteQuadraticModel :=
  fold_left (fun dqm '(i, coord0) =>
    fold_left (fun dqm j =>
      let coord1 := nth j coordinates coord0 in
      let d := sqrt (get_distance coord0 coord1 / max_distance) in
      let weight := - tanh d * 0.1 in
      let dqm := set_quadratic_case i 0 j 1 weight dqm in
      let dqm := set_quadratic_case i 0 j 2 weight dqm in
      let dqm := set_quadratic_case i 1 j 0 weight dqm in
      let dqm := set_quadratic_case i 1 j 2 weight dqm in
      let dqm := set_quadratic_case i 2 j 0 weight dqm in
      set_quadratic_case i 2 j 1 weight dqm)
      (range (i + 1) (length coordinates)) dqm)
    (enumerate (removelast coordinates)) dqm.

(** Lines 61 to 98 of [cluster_points]: the model handed to the sampler. *)
Definition build_dqm (scattered_points : list (R * R)) : DiscreteQuadraticModel :=
  let coordinates := to_coordinates scattered_points in
  let max_distance := cluster_max_distance coordinates in
  let dqm := empty_dqm in
  let dqm := add_variables coordinates dqm in
  let dqm := bias_same_color coordinates max_distance dqm in
  bias_different_color coordinates max_distance dqm.

(** ** Outcomes, the sampler and the trace *)

(** An exception, by its message. *)
Definition exn : Type := string.

Inductive result (A : Type) : Type :=
| Ok (a : A)
| Raise (e : exn).
Arguments Ok {A} a.
Arguments Raise {A} e.

(** A sample: the case chosen for each variable label. *)
Definition Sample : Type := nat -> option nat.

(** [sampleset.first.sample] either yields the best sample or raises. *)
Record SampleSet : Type := mkSampleSet { first_sample : result Sample }.

(** The Leap client as the script meets it: constructing the sampler and
    submitting a model.  Both talk to the remote service and may raise. *)
Record Leap : Type := mkLeap {
  LeapHybridDQMSampler : result unit;
  sample_dqm : DiscreteQuadraticModel -> result SampleSet
}.

(** A sample fits a model when every variable of the model gets one of its
    cases. *)
Definition sample_fits (dqm : DiscreteQuadraticModel) (s : Sample) : Prop :=
  forall v num_cases, nth_error (variables dqm) v = Some num_cases ->
    exists c, s v = Some c /\ (c < num_cases)%nat.

(** ** The script's effects *)

Section Program.

(** [utilities.get_groupings] is not among the sources: the function and the
    type of what it returns are taken as parameters. *)
Variable Groupings : Type.
Variable get_groupings : Sample -> list Coordinate -> Groupings.

(** The remote service's answers for this run. *)
Variable leap : Leap.

Inductive event : Type :=
| NewSampler
| SampleDqm (dqm : DiscreteQuadraticModel)
| SaveScatterplot (points : list (R * R)) (filename : string)
| SaveGroupings (groupings : Groupings) (filename : string)
| PrintGroupings (groupings : Groupings)
| PrintLine (line : string).

(** A computation leaves a trace, oldest event first, and either returns or
    raises. *)
Definition io (A : Type) : Type := (list event * result A)%type.

Definition ret {A : Type} (a : A) : io A := ([], Ok a).

Definition bind {A B : Type} (m : io A) (k : A -> io B) : io B :=
  match m with
  | (t, Ok a) => let (t', r) := k a in (t ++ t', r)
  | (t, Raise e) => (t, Raise e)
  end.

Notation "v <- m ;; k" := (bind m (fun v => k))
  (at level 61, m at next level, right associativity).
Notation "m ;; k" := (bind m (fun _ => k))
  (at level 61, right associativity).

(** A call that leaves the script: the event, then the callee's outcome. *)
Definition call {A : Type} (ev : event) (outcome : result A) : io A :=
  ([ev], outcome).

(** An outcome that leaves no event of its own. *)
Definition lift {A : Type} (outcome : result A) : io A := ([], outcome).

Definition trace {A : Type} (m : io A) : list event := fst m.
Definition outcome {A : Type} (m : io A) : result A := snd m.

(** Modelled from the spec: [utilities.visualize_scatterplot] is not among
    the sources; the spec's outputs are "two image files (unclustered and
    clustered scatter plots)", so the call saves the unclustered plot of the
    points to [filename]. *)
Definition visualize_scatterplot (points : list (R * R)) (filename : string)
    : io unit :=
  call (SaveScatterplot points filename) (Ok tt).

(** Modelled from the spec: [utilities.visualize_groupings] is not among the
    sources; it saves the clustered plot of the groupings to [filename]. *)
Definition visualize_groupings (groupings : Groupings) (filename : string)
    : io unit :=
  call (SaveGroupings groupings filename) (Ok tt).

Definition cluster_points (scattered_points : list (R * R)) (filename : string)
    (problem_inspector : bool) : io unit :=
  let coordinates := to_coordinates scattered_points in
  let dqm := build_dqm scattered_points in
  sampler <- call NewSampler (LeapHybridDQMSampler leap) ;;
  sampleset <- call (SampleDqm dqm) (sample_dqm leap dqm) ;;
  best_sample <- lift (first_sample sampleset) ;;
  let groupings := get_groupings best_sample coordinates in
  visualize_groupings groupings filename ;;
  call (PrintGroupings groupings) (Ok tt).

(** The hardcoded data set. *)
Definition scattered_points : list (R * R) := [(0, 0); (1, 1); (2, 4); (3, 2)].

Definition orig_filename : string := "four_points.png".
Definition clustered_filename : string := "four_points_clustered.png".

(** ["Your plots are saved to '{}' and '{}'.".format(a, b)]. *)
Definition summary_line (a b : string) : string :=
  ("Your plots are saved to '" ++ a ++ "' and '" ++ b ++ "'.")%string.

(** The [__main__] block.  [no_problem_inspector] tells whether
    [--no-problem-inspector] is on the command line: the option has
    [action='store_false'], so [args.problem_inspector] is [True] without it
    and [False] with it. *)
Definition main (no_problem_inspector : bool) : io unit :=
  let problem_inspector := negb no_problem_inspector in
  visualize_scatterplot scattered_points orig_filename ;;
  cluster_points scattered_points clustered_filename problem_inspector ;;
  call (PrintLine (summary_line orig_filename clustered_filename)) (Ok tt).

(** ** Reading a trace *)

(** The image files a trace saves, in order. *)
Definition image_file (ev : event) : option string :=
  match ev with
  | SaveScatterplot _ filename => Some filename
  | SaveGroupings _ filename => Some filename
  | _ => None
  end.

Fixpoint image_files (t : list event) : list string :=
  match t with
  | [] => []
  | ev :: t' =>
      match image_file ev with
      | Some filename => filename :: image_files t'
      | None => image_files t'
      end
  end.

(** The models submitted to the sampler, in order. *)
Fixpoint submissions (t : list event) : list DiscreteQuadraticModel :=
  match t with
  | [] => []
  | SampleDqm dqm :: t' => dqm :: submissions t'
  | _ :: t' => submissions t'
  end.

(** The lines printed, groupings left out. *)
Fixpoint printed_lines (t : list event) : list string :=
  match t with
  | [] => []
  | PrintLine line :: t' => line :: printed_lines t'
  | _ :: t' => printed_lines t'
  end.

(** The image files saved before the first submission to the sampler. *)
Fixpoint files_before_submission (t : list event) : list string :=
  match t with
  | [] => []
  | SampleDqm _ :: _ => []
  | ev :: t' =>
      match image_file ev with
      | Some filename => filename :: files_before_submission t'
      | None => files_before_submission t'
      end
  end.

End Program.

Arguments NewSampler {Groupings}.
Arguments SampleDqm {Groupings} dqm.
Arguments SaveScatterplot {Groupings} points filename.
Arguments SaveGroupings {Groupings} groupings filename.
Arguments PrintGroupings {Groupings} groupings.
Arguments PrintLine {Groupings} line.
Arguments trace {Groupings A} m.
Arguments outcome {Groupings A} m.
Arguments cluster_points {Groupings} get_groupings leap scattered_points filename
  problem_inspector.
Arguments main {Groupings} get_groupings leap no_problem_inspector.
Arguments image_files {Groupings} t.
Arguments submissions {Groupings} t.
Arguments printed_lines {Groupings} t.
Arguments files_before_submission {Groupings} t.

(** ** The biases the loops set, as lists *)

(** The weight of the first pair of loops. *)
Definition same_color_weight (coord0 coord1 : Coordinate) (max_distance : R) : R :=
  - cos (get_distance coord0 coord1 / max_distance * PI).

(** The weight of the second pair of loops. *)
Definition different_color_weight (coord0 coord1 : Coordinate) (max_distance : R)
    : R :=
  - tanh (sqrt (get_distance coord0 coord1 / max_distance)) * 0.1.

(** What one pass of the body of the first pair of loops sets. *)
Definition same_color_entries (i j : nat) (weight : R) : list (interaction * R) :=
  [((i, 0, j, 0)%nat, weight); ((i, 1, j, 1)%nat, weight);
   ((i, 2, j, 2)%nat, weight)].

(** What one pass of the body of the second pair of loops sets. *)
Definition different_color_entries (i j : nat) (weight : R)
    : list (interaction * R) :=
  [((i, 0, j, 1)%nat, weight); ((i, 0, j, 2)%nat, weight);
   ((i, 1, j, 0)%nat, weight); ((i, 1, j, 2)%nat, weight);
   ((i, 2, j, 0)%nat, weight); ((i, 2, j, 1)%nat, weight)].

(** Every pair [i < j] of a list of coordinates, by index, with what the
    loop body [entries] sets for it. *)
Definition over_pairs (coordinates : list Coordinate)
    (entries : nat -> nat -> Coordinate -> Coordinate -> list (interaction * R))
    : list (interaction * R) :=
  flat_map (fun '(i, coord0) =>
              flat_map (fun j => entries i j coord0 (nth j coordinates coord0))
                       (range (i + 1) (length coordinates)))
           (enumerate (removelast coordinates)).

(** The bias the claims expect for the interaction [(i, c0, j, c1)]. *)
Definition expected_bias (coord_i coord_j : Coordinate) (max_distance : R)
    (c0 c1 : nat) : R :=
  let d := get_distance coord_i coord_j / max_distance in
  if (c0 =? c1)%nat then - cos (d * PI) else - tanh (sqrt d) * 0.1.

(** A loop body is keyed when pass [(i, j)] only sets interactions between
    variable [i] and variable [j]. *)
Definition keyed
    (entries : nat -> nat -> Coordinate -> Coordinate -> list (interaction * R))
    : Prop :=
  forall i j a b e, In e (entries i j a b) ->
    exists uc vc, fst e = (i, uc, j, vc).

(** A failure of the client library during the remote call: constructing
    the sampler raises, or submitting the model raises, or reading the best
    sample of the answer raises. *)
Definition remote_failure (leap : Leap) (dqm : DiscreteQuadraticModel) (e : exn)
    : Prop :=
  LeapHybridDQMSampler leap = Raise e \/
  (LeapHybridDQMSampler leap = Ok tt /\
   (sample_dqm leap dqm = Raise e \/
    exists sampleset,
      sample_dqm leap dqm = Ok sampleset /\ first_sample sampleset = Raise e)).

(** ** Runs to test with *)

(** A sample that puts every point in category 0. *)
Definition all_zero : Sample := fun _ => Some 0%nat.

(** A service that answers every model with [all_zero]. *)
Definition leap_ok : Leap :=
  mkLeap (Ok tt) (fun _ => Ok (mkSampleSet (Ok all_zero))).

(** A service whose solver fails. *)
Definition leap_solver_error : Leap :=
  mkLeap (Ok tt) (fun _ => Raise "SolverFailureError"%string).

(** A service that refuses the client's token. *)
Definition leap_auth_error : Leap :=
  mkLeap (Raise "SolverAuthenticationError"%string)
         (fun _ => Raise "unreachable"%string).

(** Groupings as the list of categories of the points, in order. *)
Definition categories (s : Sample) (coordinates : list Coordinate)
    : list (option nat) :=
  map s (seq 0 (length coordinates)).

(** The distances [get_max_distance] compares, in the order of its loops. *)
Definition pair_distances (coordinates : list Coordinate) : list R :=
  flat_map (fun '(i, coord0) =>
              map (get_distance coord0) (skipn (i + 1) coordinates))
           (enumerate (removelast coordinates)).



(** Swapping categories 0 and 1. *)
Definition swap01 (c : nat) : nat :=
  match c with
  | 0 => 1
  | 1 => 0
  | _ => c
  end%nat.

(** * Distances *)

(** C5. [get_distance] is symmetric: for every two coordinates [a] and [b],
    [get_distance a b = get_distance b a]. *)
Theorem get_distance_sym (a b : Coordinate) :
  get_distance a b = get_distance b a.
Proof.
  unfold get_distance. cbv zeta. f_equal. ring.
Qed.

Lemma get_distance_nonneg (a b : Coordinate) : 0 <= get_distance a b.
Proof. unfold get_distance. apply sqrt_pos. Qed.

Lemma py_max_Rmax (a b : R) : py_max a b = Rmax a b.
Proof.
  unfold py_max, Rmax.
  destruct (Rlt_dec a b), (Rle_dec a b); lra.
Qed.

Lemma py_max_ge_r (a b : R) : b <= py_max a b.
Proof. unfold py_max. destruct (Rlt_dec a b); lra. Qed.

Lemma py_max_ge_l (a b : R) : a <= py_max a b.
Proof. unfold py_max. destruct (Rlt_dec a b); lra. Qed.

Lemma max_distance_from_ge (coord0 : Coordinate) (rest : list Coordinate) (m : R) :
  m <= max_distance_from coord0 rest m.
Proof.
  unfold max_distance_from. revert m.
  induction rest as [|c rest IH]; intros m; simpl.
  - lra.
  - eapply Rle_trans; [apply (py_max_ge_l m (get_distance coord0 c))|apply IH].
Qed.

Lemma get_max_distance_nonneg (coordinates : list Coordinate) :
  0 <= get_max_distance coordinates.
Proof.
  unfold get_max_distance.
  set (body := fun (max_distance : R) '(i, coord0) =>
     max_distance_from coord0 (skipn (i + 1) coordinates) max_distance).
  assert (grows : forall l m, m <= fold_left body l m).
  { induction l as [|[i c] l IH]; intros m; simpl.
    - lra.
    - eapply Rle_trans; [|apply IH]. apply max_distance_from_ge. }
  apply grows.
Qed.

Lemma py_max_sqrt (a b : R) :
  0 <= a -> 0 <= b -> py_max (sqrt a) (sqrt b) = sqrt (Rmax a b).
Proof.
  intros Ha Hb. unfold py_max.
  destruct (Rlt_dec (sqrt a) (sqrt b)) as [Hlt|Hge].
  - apply sqrt_lt_0_alt in Hlt. rewrite Rmax_right by lra. reflexivity.
  - destruct (Rle_lt_dec b a) as [Hba|Hab].
    + rewrite Rmax_left by lra. reflexivity.
    + exfalso. apply Hge. apply sqrt_lt_1; lra.
Qed.

(** On the four points of [main] the largest distance is the one between
    (0, 0) and (2, 4). *)
Example get_max_distance_four_points :
  get_max_distance (to_coordinates scattered_points) = sqrt 20.
Proof.
  unfold get_max_distance, max_distance_from, get_distance. simpl.
  rewrite <- sqrt_0 at 1.
  repeat (rewrite py_max_sqrt by nra;
          match goal with
          | |- context [Rmax ?a ?b] =>
              first [rewrite (Rmax_left a b) by nra
                    |rewrite (Rmax_right a b) by nra]
          end).
  f_equal. lra.
Qed.

Example cluster_max_distance_four_points :
  cluster_max_distance (to_coordinates scattered_points) = sqrt 20.
Proof.
  unfold cluster_max_distance. rewrite get_max_distance_four_points.
  rewrite <- sqrt_1 at 1.
  rewrite py_max_sqrt by lra. rewrite Rmax_left by lra. reflexivity.
Qed.

(** A single point, or none: no pair, the largest distance is 0 and the
    scaling factor falls back to 1. *)
Example cluster_max_distance_no_pair (p : R * R) :
  cluster_max_distance (to_coordinates []) = 1
  /\ cluster_max_distance (to_coordinates [p]) = 1.
Proof.
  destruct p as [px py].
  unfold cluster_max_distance, get_max_distance, py_max. simpl.
  destruct (Rlt_dec 0 1); [split; reflexivity|lra].
Qed.

(** C4. For every list of points the scaling factor [max_distance] of
    [cluster_points] is at least 1; so it is not zero, and every distance
    rescaled by it is non-negative. *)
Theorem cluster_max_distance_ge_1 (scattered_points : list (R * R)) :
  let max_distance := cluster_max_distance (to_coordinates scattered_points) in
  1 <= max_distance /\
  max_distance <> 0 /\
  forall coord0 coord1 : Coordinate,
    0 <= get_distance coord0 coord1 / max_distance.
Proof.
  intros max_distance.
  assert (H1 : 1 <= max_distance) by apply py_max_ge_r.
  split; [exact H1|]. split; [lra|].
  intros coord0 coord1.
  apply Rmult_le_pos; [apply get_distance_nonneg|].
  left. apply Rinv_0_lt_compat. lra.
Qed.

(** * The model that [cluster_points] builds *)

(** A loop whose body only sets biases sets the biases of its passes, in
    order, and leaves the variables alone. *)
Lemma fold_left_sets {A : Type} (body : DiscreteQuadraticModel -> A -> DiscreteQuadraticModel)
    (entries : A -> list (interaction * R)) :
  (forall dqm a,
      body dqm a = mkDQM (variables dqm) (quadratic dqm ++ entries a)) ->
  forall l dqm,
    fold_left body l dqm
    = mkDQM (variables dqm) (quadratic dqm ++ flat_map entries l).
Proof.
  intros Hbody l.
  induction l as [|a l IH]; intros dqm; simpl.
  - rewrite app_nil_r. destruct dqm; reflexivity.
  - rewrite IH, Hbody. simpl. rewrite <- app_assoc. reflexivity.
Qed.

Lemma add_variables_spec (coordinates : list Coordinate) (dqm : DiscreteQuadraticModel) :
  add_variables coordinates dqm
  = mkDQM (variables dqm ++ repeat 3%nat (length coordinates)) (quadratic dqm).
Proof.
  unfold add_variables. revert dqm.
  induction coordinates as [|c l IH]; intros dqm; simpl.
  - rewrite app_nil_r. destruct dqm; reflexivity.
  - rewrite IH. unfold add_variable. simpl.
    rewrite <- app_assoc. reflexivity.
Qed.

Lemma bias_same_color_spec (coordinates : list Coordinate) (max_distance : R)
    (dqm : DiscreteQuadraticModel) :
  bias_same_color coordinates max_distance dqm
  = mkDQM (variables dqm)
      (quadratic dqm ++
       over_pairs coordinates (fun i j coord0 coord1 =>
         same_color_entries i j (same_color_weight coord0 coord1 max_distance))).
Proof.
  unfold bias_same_color, over_pairs.
  apply fold_left_sets. intros dqm0 [i coord0].
  apply fold_left_sets. intros dqm1 j.
  unfold set_quadratic_case, same_color_entries, same_color_weight. simpl.
  rewrite <- !app_assoc. reflexivity.
Qed.

Lemma bias_different_color_spec (coordinates : list Coordinate) (max_distance : R)
    (dqm : DiscreteQuadraticModel) :
  bias_different_color coordinates max_distance dqm
  = mkDQM (variables dqm)
      (quadratic dqm ++
       over_pairs coordinates (fun i j coord0 coord1 =>
         different_color_entries i j
           (different_color_weight coord0 coord1 max_distance))).
Proof.
  unfold bias_different_color, over_pairs.
  apply fold_left_sets. intros dqm0 [i coord0].
  apply fold_left_sets. intros dqm1 j.
  unfold set_quadratic_case, different_color_entries, different_color_weight.
  simpl. rewrite <- !app_assoc. reflexivity.
Qed.

(** The model of [cluster_points], in closed form. *)
Lemma build_dqm_spec (scattered_points : list (R * R)) :
  let coordinates := to_coordinates scattered_points in
  let max_distance := cluster_max_distance coordinates in
  build_dqm scattered_points
  = mkDQM (repeat 3%nat (length scattered_points))
      (over_pairs coordinates (fun i j coord0 coord1 =>
         same_color_entries i j (same_color_weight coord0 coord1 max_distance))
       ++
       over_pairs coordinates (fun i j coord0 coord1 =>
         different_color_entries i j
           (different_color_weight coord0 coord1 max_distance))).
Proof.
  intros coordinates max_distance. unfold build_dqm.
  fold coordinates. fold max_distance.
  rewrite bias_different_color_spec, bias_same_color_spec, add_variables_spec.
  simpl. unfold coordinates, to_coordinates. rewrite length_map. reflexivity.
Qed.


(** Two points: two variables, then the three same-colour biases, then the
    six different-colour ones, in the order the loops set them. *)
Example build_dqm_two_points :
  let coord0 := mkCoordinate 0 0 in
  let coord1 := mkCoordinate 3 4 in
  let max_distance := cluster_max_distance [coord0; coord1] in
  let same := - cos (get_distance coord0 coord1 / max_distance * PI) in
  let different := - tanh (sqrt (get_distance coord0 coord1 / max_distance)) * 0.1 in
  build_dqm [(0, 0); (3, 4)]
  = mkDQM [3; 3]%nat
      [((0, 0, 1, 0)%nat, same); ((0, 1, 1, 1)%nat, same);
       ((0, 2, 1, 2)%nat, same);
       ((0, 0, 1, 1)%nat, different); ((0, 0, 1, 2)%nat, different);
       ((0, 1, 1, 0)%nat, different); ((0, 1, 1, 2)%nat, different);
       ((0, 2, 1, 0)%nat, different); ((0, 2, 1, 1)%nat, different)].
Proof. reflexivity. Qed.

(** * Selecting the biases of one interaction *)

Lemma combine_seq_nth {A : Type} (l : list A) (d : A) (a : nat) :
  combine (seq a (length l)) l
  = map (fun i => (i, nth (i - a) l d)) (seq a (length l)).
Proof.
  revert a. induction l as [|e l IH]; intros a; simpl.
  - reflexivity.
  - rewrite Nat.sub_diag. f_equal.
    rewrite IH. apply map_ext_in. intros i Hi.
    apply in_seq in Hi.
    replace (i - a)%nat with (S (i - S a)) by lia. reflexivity.
Qed.

Lemma enumerate_nth {A : Type} (l : list A) (d : A) :
  enumerate l = map (fun i => (i, nth i l d)) (seq 0 (length l)).
Proof.
  unfold enumerate. rewrite (combine_seq_nth l d 0).
  apply map_ext. intros i. rewrite Nat.sub_0_r. reflexivity.
Qed.

Lemma length_removelast' {A : Type} (l : list A) :
  length (removelast l) = (length l - 1)%nat.
Proof.
  rewrite removelast_firstn_len, length_firstn. lia.
Qed.

Lemma enumerate_removelast {A : Type} (l : list A) (d : A) :
  enumerate (removelast l)
  = map (fun i => (i, nth i l d)) (seq 0 (length l - 1)).
Proof.
  rewrite (enumerate_nth _ d), length_removelast'.
  apply map_ext_in. intros i Hi. apply in_seq in Hi.
  rewrite removelast_firstn_len, nth_firstn.
  destruct (Nat.ltb_spec i (pred (length l))); [reflexivity|lia].
Qed.

Lemma filter_flat_map {A B : Type} (p : B -> bool) (f : A -> list B) (l : list A) :
  filter p (flat_map f l) = flat_map (fun a => filter p (f a)) l.
Proof.
  induction l as [|a l IH]; simpl.
  - reflexivity.
  - rewrite filter_app, IH. reflexivity.
Qed.

Lemma flat_map_map' {A B C : Type} (g : A -> B) (f : B -> list C) (l : list A) :
  flat_map f (map g l) = flat_map (fun a => f (g a)) l.
Proof.
  induction l as [|a l IH]; simpl; [reflexivity|].
  rewrite IH. reflexivity.
Qed.

(** In a loop over a range where a single pass contributes, the result is
    that pass's. *)
Lemma flat_map_seq_single {B : Type} (h : nat -> list B) (a n i : nat) :
  (a <= i < a + n)%nat ->
  (forall k, k <> i -> h k = []) ->
  flat_map h (seq a n) = h i.
Proof.
  intros Hi Hother. revert a Hi.
  induction n as [|n IH]; intros a Hi; [lia|].
  simpl. destruct (Nat.eq_dec a i) as [->|Hne].
  - assert (rest : forall m b, (i < b)%nat -> flat_map h (seq b m) = []).
    { induction m as [|m IHm]; intros b Hb; simpl; [reflexivity|].
      rewrite (Hother b) by lia. rewrite IHm by lia. reflexivity. }
    rewrite rest by lia. apply app_nil_r.
  - rewrite (Hother a Hne). simpl. apply IH. lia.
Qed.

Lemma interaction_eqb_eq (a b : interaction) :
  interaction_eqb a b = true <-> a = b.
Proof.
  destruct a as [[[u uc] v] vc], b as [[[u' uc'] v'] vc']. simpl.
  rewrite !andb_true_iff, !Nat.eqb_eq.
  split.
  - intros [[[-> ->] ->] ->]. reflexivity.
  - intros H. inversion H. auto.
Qed.

Lemma filter_picks_nil (k : interaction) (l : list (interaction * R)) :
  (forall e, In e l -> fst e <> k) -> filter (picks k) l = [].
Proof.
  intros H. induction l as [|e l IH]; simpl; [reflexivity|].
  destruct (picks k e) eqn:E.
  - apply interaction_eqb_eq in E. exfalso. apply (H e); [left; reflexivity|exact E].
  - apply IH. intros e' He'. apply H. right. exact He'.
Qed.

Lemma over_pairs_picks (coordinates : list Coordinate)
    (entries : nat -> nat -> Coordinate -> Coordinate -> list (interaction * R))
    (i j c0 c1 : nat) (coord_i coord_j : Coordinate) :
  keyed entries ->
  nth_error coordinates i = Some coord_i ->
  nth_error coordinates j = Some coord_j ->
  (i < j)%nat ->
  filter (picks (i, c0, j, c1)) (over_pairs coordinates entries)
  = filter (picks (i, c0, j, c1)) (entries i j coord_i coord_j).
Proof.
  intros Hkeyed Hi Hj Hij.
  assert (Hjn : (j < length coordinates)%nat).
  { apply nth_error_Some. congruence. }
  unfold over_pairs.
  rewrite (enumerate_removelast coordinates coord_i), flat_map_map', filter_flat_map.
  rewrite (flat_map_seq_single _ 0 (length coordinates - 1) i); [| lia |].
  - rewrite filter_flat_map. unfold range.
    rewrite (flat_map_seq_single _ (i + 1) (length coordinates - (i + 1)) j);
      [| lia |].
    + rewrite (nth_error_nth _ _ coord_i Hi).
      rewrite (nth_error_nth _ _ coord_i Hj). reflexivity.
    + intros j' Hj'. apply filter_picks_nil. intros e He.
      destruct (Hkeyed _ _ _ _ _ He) as (uc & vc & ->). congruence.
  - intros i' Hi'. rewrite filter_flat_map.
    assert (all_nil : forall l : list nat,
      flat_map (fun a => filter (picks (i, c0, j, c1))
                  (entries i' a (nth i' coordinates coord_i)
                     (nth a coordinates (nth i' coordinates coord_i)))) l = []).
    { induction l as [|a l IH]; simpl; [reflexivity|].
      rewrite IH, app_nil_r. apply filter_picks_nil. intros e He.
      destruct (Hkeyed _ _ _ _ _ He) as (uc & vc & ->). congruence. }
    apply all_nil.
Qed.

(** The loops only ever set interactions from a point to a later point. *)
Lemma over_pairs_ordered (coordinates : list Coordinate)
    (entries : nat -> nat -> Coordinate -> Coordinate -> list (interaction * R))
    (e : interaction * R) :
  keyed entries ->
  In e (over_pairs coordinates entries) ->
  exists i uc j vc,
    fst e = (i, uc, j, vc) /\ (i < j < length coordinates)%nat.
Proof.
  intros Hkeyed He. unfold over_pairs in He.
  apply in_flat_map in He. destruct He as ([i coord0] & _ & He).
  apply in_flat_map in He. destruct He as (j & Hj & He).
  unfold range in Hj. apply in_seq in Hj.
  destruct (Hkeyed _ _ _ _ _ He) as (uc & vc & Hk).
  exists i, uc, j, vc. split; [exact Hk|lia].
Qed.

Lemma same_color_keyed (max_distance : R) :
  keyed (fun i j coord0 coord1 =>
           same_color_entries i j (same_color_weight coord0 coord1 max_distance)).
Proof.
  intros i j a b e He. unfold same_color_entries in He. simpl in He.
  destruct He as [<-|[<-|[<-|[]]]]; simpl; eauto.
Qed.

Lemma different_color_keyed (max_distance : R) :
  keyed (fun i j coord0 coord1 =>
           different_color_entries i j
             (different_color_weight coord0 coord1 max_distance)).
Proof.
  intros i j a b e He. unfold different_color_entries in He. simpl in He.
  destruct He as [<-|[<-|[<-|[<-|[<-|[<-|[]]]]]]]; simpl; eauto.
Qed.

Lemma picks_pair (i j a b c0 c1 : nat) (w : R) :
  picks (i, c0, j, c1) ((i, a, j, b), w) = ((a =? c0) && (b =? c1))%nat.
Proof.
  unfold picks, interaction_eqb. simpl.
  rewrite !Nat.eqb_refl. simpl.
  destruct (a =? c0)%nat; reflexivity.
Qed.

Lemma same_color_entries_picks (i j c0 c1 : nat) (w : R) :
  (c0 < 3)%nat -> (c1 < 3)%nat ->
  map snd (filter (picks (i, c0, j, c1)) (same_color_entries i j w))
  = if (c0 =? c1)%nat then [w] else [].
Proof.
  intros H0 H1. unfold same_color_entries. simpl filter.
  rewrite !picks_pair.
  destruct c0 as [|[|[|c0]]]; [| | |lia];
    (destruct c1 as [|[|[|c1]]]; [| | |lia]); reflexivity.
Qed.

Lemma different_color_entries_picks (i j c0 c1 : nat) (w : R) :
  (c0 < 3)%nat -> (c1 < 3)%nat ->
  map snd (filter (picks (i, c0, j, c1)) (different_color_entries i j w))
  = if (c0 =? c1)%nat then [] else [w].
Proof.
  intros H0 H1. unfold different_color_entries. simpl filter.
  rewrite !picks_pair.
  destruct c0 as [|[|[|c0]]]; [| | |lia];
    (destruct c1 as [|[|[|c1]]]; [| | |lia]); reflexivity.
Qed.

(** The biases the built model holds for the interaction [(i, c0, j, c1)] of
    two points [i < j]: one, the expected one. *)
Lemma biases_set_build (scattered_points : list (R * R)) (i j c0 c1 : nat)
    (coord_i coord_j : Coordinate) :
  let coordinates := to_coordinates scattered_points in
  nth_error coordinates i = Some coord_i ->
  nth_error coordinates j = Some coord_j ->
  (i < j)%nat -> (c0 < 3)%nat -> (c1 < 3)%nat ->
  biases_set (i, c0, j, c1) (build_dqm scattered_points)
  = [expected_bias coord_i coord_j (cluster_max_distance coordinates) c0 c1].
Proof.
  intros coordinates Hi Hj Hij H0 H1.
  rewrite build_dqm_spec. unfold biases_set. simpl quadratic.
  fold coordinates.
  rewrite filter_app, map_app.
  rewrite (over_pairs_picks coordinates _ i j c0 c1 coord_i coord_j
             (same_color_keyed _) Hi Hj Hij).
  rewrite (over_pairs_picks coordinates _ i j c0 c1 coord_i coord_j
             (different_color_keyed _) Hi Hj Hij).
  rewrite same_color_entries_picks, different_color_entries_picks by assumption.
  unfold expected_bias, same_color_weight, different_color_weight.
  destruct (c0 =? c1)%nat; reflexivity.
Qed.

(** Nothing is set from a point to an earlier point or to itself. *)
Lemma biases_set_backwards (scattered_points : list (R * R)) (i j c0 c1 : nat) :
  (i <= j)%nat ->
  biases_set (j, c1, i, c0) (build_dqm scattered_points) = [].
Proof.
  intros Hij. rewrite build_dqm_spec. unfold biases_set. simpl quadratic.
  rewrite filter_picks_nil; [reflexivity|].
  intros e He Hk. apply in_app_or in He.
  destruct He as [He|He];
    [apply over_pairs_ordered in He; [|apply same_color_keyed]
    |apply over_pairs_ordered in He; [|apply different_color_keyed]];
    destruct He as (u & uc & v & vc & Hfst & Huv);
    rewrite Hfst in Hk; inversion Hk; lia.
Qed.

Lemma get_quadratic_case_build (scattered_points : list (R * R)) (i j c0 c1 : nat)
    (coord_i coord_j : Coordinate) :
  let coordinates := to_coordinates scattered_points in
  nth_error coordinates i = Some coord_i ->
  nth_error coordinates j = Some coord_j ->
  (i < j)%nat -> (c0 < 3)%nat -> (c1 < 3)%nat ->
  get_quadratic_case i c0 j c1 (build_dqm scattered_points)
  = Some (expected_bias coord_i coord_j (cluster_max_distance coordinates) c0 c1).
Proof.
  intros coordinates Hi Hj Hij H0 H1. unfold get_quadratic_case.
  rewrite (biases_set_build scattered_points i j c0 c1 coord_i coord_j)
    by assumption.
  reflexivity.
Qed.

Lemma variables_build (scattered_points : list (R * R)) :
  variables (build_dqm scattered_points)
  = repeat 3%nat (length scattered_points).
Proof. rewrite build_dqm_spec. reflexivity. Qed.

(** * Runs *)

Section Runs.

Context {Groupings : Type}.
Variable get_groupings : Sample -> list Coordinate -> Groupings.
Variable leap : Leap.

(** Every way [cluster_points] can go, by the answers of the service. *)
Lemma cluster_points_run (points : list (R * R)) (filename : string)
    (problem_inspector : bool) :
  cluster_points get_groupings leap points filename problem_inspector
  = match LeapHybridDQMSampler leap with
    | Raise e => ([NewSampler], Raise e)
    | Ok _ =>
        match sample_dqm leap (build_dqm points) with
        | Raise e => ([NewSampler; SampleDqm (build_dqm points)], Raise e)
        | Ok sampleset =>
            match first_sample sampleset with
            | Raise e => ([NewSampler; SampleDqm (build_dqm points)], Raise e)
            | Ok best_sample =>
                let groupings :=
                  get_groupings best_sample (to_coordinates points) in
                ([NewSampler; SampleDqm (build_dqm points);
                  SaveGroupings groupings filename; PrintGroupings groupings],
                 Ok tt)
            end
        end
    end.
Proof.
  unfold cluster_points, bind, call, lift, visualize_groupings.
  destruct (LeapHybridDQMSampler leap) as [[]|e]; [|reflexivity].
  destruct (sample_dqm leap (build_dqm points)) as [sampleset|e]; [|reflexivity].
  destruct (first_sample sampleset) as [best_sample|e]; reflexivity.
Qed.

(** Every way [main] can go. *)
Lemma main_run (no_problem_inspector : bool) :
  main get_groupings leap no_problem_inspector
  = match cluster_points get_groupings leap scattered_points clustered_filename
            (negb no_problem_inspector) with
    | (t, Ok _) =>
        (SaveScatterplot scattered_points orig_filename :: t
           ++ [PrintLine (summary_line orig_filename clustered_filename)],
         Ok tt)
    | (t, Raise e) =>
        (SaveScatterplot scattered_points orig_filename :: t, Raise e)
    end.
Proof.
  unfold main, bind, call, visualize_scatterplot.
  destruct (cluster_points get_groupings leap scattered_points clustered_filename
              (negb no_problem_inspector)) as [t [[]|e]]; reflexivity.
Qed.

End Runs.

(** A run whose service answers, and a run whose client is refused. *)
Example main_run_ok :
  let groupings := categories all_zero (to_coordinates scattered_points) in
  main categories leap_ok false
  = ([SaveScatterplot scattered_points "four_points.png"; NewSampler;
      SampleDqm (build_dqm scattered_points);
      SaveGroupings groupings "four_points_clustered.png";
      PrintGroupings groupings;
      PrintLine "Your plots are saved to 'four_points.png' and 'four_points_clustered.png'."],
     Ok tt).
Proof. reflexivity. Qed.

Example main_run_auth_error :
  main categories leap_auth_error false
  = ([SaveScatterplot scattered_points "four_points.png"; NewSampler],
     Raise "SolverAuthenticationError"%string).
Proof. reflexivity. Qed.

(** * The claims *)

(** C1. In [cluster_points], for two points [i < j] and two categories
    [c0], [c1] below 3, exactly one quadratic bias is set for
    [(i, c0, j, c1)]: [-cos(d*pi)] when [c0 = c1] and [-tanh(sqrt(d)) * 0.1]
    otherwise, [d] being the distance of the two points divided by
    [max_distance]; none is set for the mirrored interaction
    [(j, c1, i, c0)].  The model that holds these biases is the one submitted,
    and it is submitted once: the submissions of a run are that model alone
    (none when the sampler could not be constructed). *)
Theorem cluster_points_sets_one_bias {Groupings : Type}
    (get_groupings : Sample -> list Coordinate -> Groupings) (leap : Leap)
    (points : list (R * R)) (filename : string) (problem_inspector : bool)
    (i j c0 c1 : nat) (coord_i coord_j : Coordinate) :
  let coordinates := to_coordinates points in
  let max_distance := cluster_max_distance coordinates in
  nth_error coordinates i = Some coord_i ->
  nth_error coordinates j = Some coord_j ->
  (i < j)%nat -> (c0 < 3)%nat -> (c1 < 3)%nat ->
  biases_set (i, c0, j, c1) (build_dqm points)
  = [let d := get_distance coord_i coord_j / max_distance in
     if (c0 =? c1)%nat then - cos (d * PI) else - tanh (sqrt d) * 0.1]
  /\
  biases_set (j, c1, i, c0) (build_dqm points) = []
  /\
  submissions
    (trace (cluster_points get_groupings leap points filename problem_inspector))
  = match LeapHybridDQMSampler leap with
    | Ok _ => [build_dqm points]
    | Raise _ => []
    end.
Proof.
  intros coordinates max_distance Hi Hj Hij H0 H1. split.
  - apply (biases_set_build points i j c0 c1 coord_i coord_j); assumption.
  - split; [apply biases_set_backwards; lia|].
    rewrite cluster_points_run.
    destruct (LeapHybridDQMSampler leap) as [[]|e]; [|reflexivity].
    destruct (sample_dqm leap (build_dqm points)) as [sampleset|e]; [|reflexivity].
    destruct (first_sample sampleset) as [best_sample|e]; reflexivity.
Qed.

(** C2 (the code does not do this).  The flag reaches [cluster_points] as
    [problem_inspector] and is never read: the two values of the flag give
    the same run, event for event. *)
Theorem problem_inspector_ignored {Groupings : Type}
    (get_groupings : Sample -> list Coordinate -> Groupings) (leap : Leap)
    (points : list (R * R)) (filename : string) :
  cluster_points get_groupings leap points filename true
  = cluster_points get_groupings leap points filename false
  /\ main get_groupings leap false = main get_groupings leap true.
Proof.
  split.
  - rewrite !cluster_points_run. reflexivity.
  - rewrite !main_run, !cluster_points_run. reflexivity.
Qed.

(** C3, as amended.  A run goes in this order: save the un-clustered plot,
    build the model and construct the sampler, submit the model once, save
    the clustered plot of the answer, print the groupings, print the summary
    line; a run that raises stops at the sampler.  The un-clustered plot is
    the only file saved before the submission. *)
Theorem main_order {Groupings : Type}
    (get_groupings : Sample -> list Coordinate -> Groupings) (leap : Leap)
    (no_problem_inspector : bool) :
  let run := main get_groupings leap no_problem_inspector in
  let dqm := build_dqm scattered_points in
  files_before_submission (trace run) = ["four_points.png"%string]
  /\
  (trace run = [SaveScatterplot scattered_points "four_points.png"; NewSampler]
   \/ trace run = [SaveScatterplot scattered_points "four_points.png";
                   NewSampler; SampleDqm dqm]
   \/ exists groupings,
        trace run = [SaveScatterplot scattered_points "four_points.png";
                     NewSampler; SampleDqm dqm;
                     SaveGroupings groupings "four_points_clustered.png";
                     PrintGroupings groupings;
                     PrintLine (summary_line "four_points.png"
                                  "four_points_clustered.png")])
  /\
  (outcome run = Ok tt ->
   exists groupings,
     trace run = [SaveScatterplot scattered_points "four_points.png";
                  NewSampler; SampleDqm dqm;
                  SaveGroupings groupings "four_points_clustered.png";
                  PrintGroupings groupings;
                  PrintLine (summary_line "four_points.png"
                               "four_points_clustered.png")]).
Proof.
  intros run dqm. unfold run, dqm.
  rewrite main_run, cluster_points_run.
  destruct (LeapHybridDQMSampler leap) as [[]|e].
  2:{ repeat split; [left; reflexivity|discriminate]. }
  destruct (sample_dqm leap (build_dqm scattered_points)) as [sampleset|e].
  2:{ repeat split; [right; left; reflexivity|discriminate]. }
  destruct (first_sample sampleset) as [best_sample|e].
  2:{ repeat split; [right; left; reflexivity|discriminate]. }
  repeat split.
  - right; right. eexists. reflexivity.
  - intros _. eexists. reflexivity.
Qed.

(** C6. Every variable added to the model has exactly 3 cases, one variable
    per input point; so a best sample that fits the submitted model gives
    every point index a category among 0, 1, 2, and the groupings plotted
    are those of that sample. *)
Theorem variables_have_three_cases {Groupings : Type}
    (get_groupings : Sample -> list Coordinate -> Groupings) (leap : Leap)
    (points : list (R * R)) (filename : string) (problem_inspector : bool) :
  variables (build_dqm points) = repeat 3%nat (length points)
  /\
  forall sampleset best_sample,
    LeapHybridDQMSampler leap = Ok tt ->
    sample_dqm leap (build_dqm points) = Ok sampleset ->
    first_sample sampleset = Ok best_sample ->
    sample_fits (build_dqm points) best_sample ->
    In (SaveGroupings (get_groupings best_sample (to_coordinates points)) filename)
       (trace (cluster_points get_groupings leap points filename
                 problem_inspector))
    /\
    forall i, (i < length points)%nat ->
      exists c, best_sample i = Some c /\ (c = 0 \/ c = 1 \/ c = 2)%nat.
Proof.
  split; [apply variables_build|].
  intros sampleset best_sample Hnew Hsample Hfirst Hfits. split.
  - rewrite cluster_points_run, Hnew, Hsample, Hfirst. simpl. auto.
  - intros i Hi.
    destruct (Hfits i 3%nat) as (c & Hc & Hlt).
    + rewrite variables_build. apply nth_error_repeat. exact Hi.
    + exists c. split; [exact Hc|lia].
Qed.

(** C7. The data set is the literal list of the four points (0, 0), (1, 1),
    (2, 4), (3, 2): whatever the command line and the service, these are the
    points [main] plots first, and a model it submits is the model of these
    points. *)
Theorem input_is_hardcoded {Groupings : Type}
    (get_groupings : Sample -> list Coordinate -> Groupings) (leap : Leap)
    (no_problem_inspector : bool) :
  let run := main get_groupings leap no_problem_inspector in
  scattered_points = [(0, 0); (1, 1); (2, 4); (3, 2)]
  /\ length scattered_points = 4%nat
  /\ (exists rest,
        trace run
        = SaveScatterplot [(0, 0); (1, 1); (2, 4); (3, 2)] "four_points.png"
            :: rest)
  /\ (submissions (trace run) = []
      \/ submissions (trace run)
         = [build_dqm [(0, 0); (1, 1); (2, 4); (3, 2)]]).
Proof.
  intros run. unfold run.
  split; [reflexivity|]. split; [reflexivity|].
  rewrite main_run, cluster_points_run.
  destruct (LeapHybridDQMSampler leap) as [[]|e].
  2:{ split; [eexists; reflexivity|]. left. reflexivity. }
  destruct (sample_dqm leap (build_dqm scattered_points)) as [sampleset|e].
  2:{ split; [eexists; reflexivity|]. right. reflexivity. }
  destruct (first_sample sampleset) as [best_sample|e].
  2:{ split; [eexists; reflexivity|]. right. reflexivity. }
  split; [eexists; reflexivity|]. right. reflexivity.
Qed.

(** C8. A run that ends without an exception saves exactly two image files,
    the un-clustered plot 'four_points.png' and then the clustered plot
    'four_points_clustered.png', and prints one summary line that names
    both. *)
Theorem successful_run_outputs {Groupings : Type}
    (get_groupings : Sample -> list Coordinate -> Groupings) (leap : Leap)
    (no_problem_inspector : bool) :
  let run := main get_groupings leap no_problem_inspector in
  outcome run = Ok tt ->
  image_files (trace run)
  = ["four_points.png"; "four_points_clustered.png"]%string
  /\
  printed_lines (trace run)
  = ["Your plots are saved to 'four_points.png' and 'four_points_clustered.png'."%string]
  /\
  exists groupings rest,
    trace run
    = SaveScatterplot scattered_points "four_points.png" :: NewSampler
        :: SampleDqm (build_dqm scattered_points)
        :: SaveGroupings groupings "four_points_clustered.png" :: rest.
Proof.
  intros run. unfold run. rewrite main_run, cluster_points_run.
  destruct (LeapHybridDQMSampler leap) as [[]|e]; [|discriminate].
  destruct (sample_dqm leap (build_dqm scattered_points)) as [sampleset|e];
    [|discriminate].
  destruct (first_sample sampleset) as [best_sample|e]; [|discriminate].
  intros _. repeat split. do 2 eexists. reflexivity.
Qed.

(** C9. Nothing catches an exception: when the client library fails during
    the remote call, [cluster_points] raises that very exception, having
    submitted the model at most once and plotted nothing; and [main] raises
    it too, without a summary line, the un-clustered plot saved before the
    call being all it leaves. *)
Theorem remote_failure_propagates {Groupings : Type}
    (get_groupings : Sample -> list Coordinate -> Groupings) (leap : Leap) :
  (forall points filename problem_inspector e,
     remote_failure leap (build_dqm points) e ->
     let run :=
       cluster_points get_groupings leap points filename problem_inspector in
     outcome run = Raise e
     /\ (length (submissions (trace run)) <= 1)%nat
     /\ image_files (trace run) = []
     /\ (trace run = [NewSampler]
         \/ trace run = [NewSampler; SampleDqm (build_dqm points)]))
  /\
  (forall no_problem_inspector e,
     remote_failure leap (build_dqm scattered_points) e ->
     let run := main get_groupings leap no_problem_inspector in
     outcome run = Raise e
     /\ (length (submissions (trace run)) <= 1)%nat
     /\ image_files (trace run) = ["four_points.png"%string]
     /\ printed_lines (trace run) = []).
Proof.
  split.
  - intros points filename problem_inspector e Hfail run. unfold run.
    rewrite cluster_points_run.
    destruct Hfail as [Hnew|[Hnew [Hsample|(sampleset & Hsample & Hfirst)]]].
    + rewrite Hnew. simpl. auto.
    + rewrite Hnew, Hsample. simpl. auto.
    + rewrite Hnew, Hsample, Hfirst. simpl. auto.
  - intros no_problem_inspector e Hfail run. unfold run.
    rewrite main_run, cluster_points_run.
    destruct Hfail as [Hnew|[Hnew [Hsample|(sampleset & Hsample & Hfirst)]]].
    + rewrite Hnew. simpl. auto.
    + rewrite Hnew, Hsample. simpl. auto.
    + rewrite Hnew, Hsample, Hfirst. simpl. auto.
Qed.

(** C10. The model does not tell the three categories apart: for two points
    [i < j] there are one same-category weight and one different-category
    weight such that the bias set for [(i, c0, j, c1)] is the first whenever
    [c0 = c1] and the second whenever [c0 <> c1]; so renaming the categories
    by a permutation of 0, 1, 2 leaves the bias of every such interaction
    unchanged. *)
Theorem biases_permutation_invariant (points : list (R * R)) (i j : nat)
    (coord_i coord_j : Coordinate) (sigma : nat -> nat) :
  let coordinates := to_coordinates points in
  let dqm := build_dqm points in
  nth_error coordinates i = Some coord_i ->
  nth_error coordinates j = Some coord_j ->
  (i < j)%nat ->
  (forall c, (c < 3)%nat -> (sigma c < 3)%nat) ->
  (forall a b, (a < 3)%nat -> (b < 3)%nat -> sigma a = sigma b -> a = b) ->
  exists same_weight different_weight : R,
    forall c0 c1, (c0 < 3)%nat -> (c1 < 3)%nat ->
      biases_set (i, c0, j, c1) dqm
      = [if (c0 =? c1)%nat then same_weight else different_weight]
      /\ biases_set (i, sigma c0, j, sigma c1) dqm
         = biases_set (i, c0, j, c1) dqm
      /\ get_quadratic_case i (sigma c0) j (sigma c1) dqm
         = get_quadratic_case i c0 j c1 dqm.
Proof.
  intros coordinates dqm Hi Hj Hij Hrange Hinj.
  exists (expected_bias coord_i coord_j (cluster_max_distance coordinates) 0 0).
  exists (expected_bias coord_i coord_j (cluster_max_distance coordinates) 0 1).
  intros c0 c1 H0 H1.
  assert (Hsame : ((sigma c0 =? sigma c1) = (c0 =? c1))%nat).
  { destruct (Nat.eqb_spec c0 c1) as [->|Hne].
    - apply Nat.eqb_refl.
    - apply Nat.eqb_neq. intros Heq. apply Hne. apply Hinj; assumption. }
  assert (Hb : forall a b, (a < 3)%nat -> (b < 3)%nat ->
    biases_set (i, a, j, b) dqm
    = [if (a =? b)%nat
       then expected_bias coord_i coord_j (cluster_max_distance coordinates) 0 0
       else expected_bias coord_i coord_j (cluster_max_distance coordinates) 0 1]).
  { intros a b Ha Hb. unfold dqm.
    rewrite (biases_set_build points i j a b coord_i coord_j) by assumption.
    fold coordinates. unfold expected_bias.
    destruct (a =? b)%nat; reflexivity. }
  split; [apply Hb; assumption|].
  assert (Heq : biases_set (i, sigma c0, j, sigma c1) dqm
                = biases_set (i, c0, j, c1) dqm).
  { rewrite !Hb by auto. rewrite Hsame. reflexivity. }
  split; [exact Heq|].
  unfold get_quadratic_case. rewrite Heq. reflexivity.
Qed.

(** * The claims on concrete runs *)

Lemma all_zero_fits (points : list (R * R)) :
  sample_fits (build_dqm points) all_zero.
Proof.
  intros v num_cases Hv. rewrite variables_build in Hv.
  apply nth_error_In, repeat_spec in Hv. subst num_cases.
  exists 0%nat. split; [reflexivity|lia].
Qed.

(** C1 on the four points, first and second point, categories 0 and 1, with
    a service that answers. *)
Lemma cluster_points_sets_one_bias_witness :
  biases_set (0, 0, 1, 1)%nat (build_dqm scattered_points)
  = [- tanh (sqrt (get_distance (mkCoordinate 0 0) (mkCoordinate 1 1)
                   / cluster_max_distance (to_coordinates scattered_points)))
     * 0.1]
  /\
  biases_set (1, 1, 0, 0)%nat (build_dqm scattered_points) = []
  /\
  submissions
    (trace (cluster_points categories leap_ok scattered_points
              "four_points_clustered.png" true))
  = [build_dqm scattered_points].
Proof.
  apply (cluster_points_sets_one_bias categories leap_ok scattered_points
           "four_points_clustered.png" true 0 1 0 1
           (mkCoordinate 0 0) (mkCoordinate 1 1));
    [reflexivity|reflexivity|lia|lia|lia].
Defined.

(** C3 as the claim has it fails: with a service that answers, the
    un-clustered plot is saved, and only then is the model submitted. *)
Lemma file_saved_before_submission :
  (exists rest,
     trace (main categories leap_ok false)
     = SaveScatterplot scattered_points "four_points.png" :: NewSampler
         :: SampleDqm (build_dqm scattered_points) :: rest)
  /\ files_before_submission (trace (main categories leap_ok false)) <> [].
Proof.
  rewrite main_run, cluster_points_run. simpl. split.
  - eexists. reflexivity.
  - discriminate.
Qed.

(** C3 as amended, on a run with a service that answers. *)
Lemma main_order_witness :
  exists groupings,
    trace (main categories leap_ok false)
    = [SaveScatterplot scattered_points "four_points.png"; NewSampler;
       SampleDqm (build_dqm scattered_points);
       SaveGroupings groupings "four_points_clustered.png";
       PrintGroupings groupings;
       PrintLine (summary_line "four_points.png" "four_points_clustered.png")].
Proof.
  apply (proj2 (proj2 (main_order categories leap_ok false))).
  reflexivity.
Defined.

(** C6 on the four points: the third point of the all-zero answer. *)
Lemma variables_have_three_cases_witness :
  variables (build_dqm scattered_points) = [3; 3; 3; 3]%nat
  /\ exists c, all_zero 2%nat = Some c /\ (c = 0 \/ c = 1 \/ c = 2)%nat.
Proof.
  destruct (variables_have_three_cases categories leap_ok scattered_points
              "four_points_clustered.png" true) as [Hvars Hsample].
  split; [exact Hvars|].
  destruct (Hsample (mkSampleSet (Ok all_zero)) all_zero
              eq_refl eq_refl eq_refl (all_zero_fits scattered_points))
    as [_ Hcat].
  apply Hcat. simpl. lia.
Defined.

(** C8 on a run with a service that answers. *)
Lemma successful_run_outputs_witness :
  outcome (main categories leap_ok false) = Ok tt
  /\ image_files (trace (main categories leap_ok false))
     = ["four_points.png"; "four_points_clustered.png"]%string
  /\ printed_lines (trace (main categories leap_ok false))
     = ["Your plots are saved to 'four_points.png' and 'four_points_clustered.png'."%string].
Proof.
  split; [reflexivity|].
  destruct (successful_run_outputs categories leap_ok false eq_refl)
    as (Hfiles & Hlines & _).
  split; [exact Hfiles|exact Hlines].
Defined.

(** C9 on a run whose solver fails. *)
Lemma remote_failure_propagates_witness :
  outcome (main categories leap_solver_error false)
  = Raise "SolverFailureError"%string
  /\ image_files (trace (main categories leap_solver_error false))
     = ["four_points.png"%string]
  /\ printed_lines (trace (main categories leap_solver_error false)) = [].
Proof.
  destruct (proj2 (remote_failure_propagates categories leap_solver_error)
              false "SolverFailureError"%string) as (Hout & _ & Hfiles & Hlines).
  - right. split; [reflexivity|]. left. reflexivity.
  - split; [exact Hout|]. split; [exact Hfiles|exact Hlines].
Defined.

(** C10 on the first two of the four points, categories 0 and 1 swapped. *)
Lemma biases_permutation_invariant_witness :
  exists same_weight different_weight : R,
    forall c0 c1, (c0 < 3)%nat -> (c1 < 3)%nat ->
      biases_set (0, c0, 1, c1)%nat (build_dqm scattered_points)
      = [if (c0 =? c1)%nat then same_weight else different_weight]
      /\ biases_set (0, swap01 c0, 1, swap01 c1)%nat (build_dqm scattered_points)
         = biases_set (0, c0, 1, c1)%nat (build_dqm scattered_points)
      /\ get_quadratic_case 0 (swap01 c0) 1 (swap01 c1)
           (build_dqm scattered_points)
         = get_quadratic_case 0 c0 1 c1 (build_dqm scattered_points).
Proof.
  apply (biases_permutation_invariant scattered_points 0 1
           (mkCoordinate 0 0) (mkCoordinate 1 1) swap01).
  - reflexivity.
  - reflexivity.
  - lia.
  - intros [|[|[|c]]] Hc; simpl; lia.
  - intros [|[|[|a]]] [|[|[|b]]] Ha Hb Hab; simpl in Hab; lia.
Defined.

(** * Further properties of the distance *)




(** * Further properties of the largest distance *)

Lemma get_distance_same (a : Coordinate) : get_distance a a = 0.
Proof.
  unfold get_distance. cbv zeta.
  replace ((x a - x a) ^ 2 + (y a - y a) ^ 2) with 0 by ring.
  apply sqrt_0.
Qed.

Lemma fold_py_max_ge (l : list R) (m : R) :
  m <= fold_left py_max l m
  /\ forall d, In d l -> d <= fold_left py_max l m.
Proof.
  revert m. induction l as [|e l IH]; intros m; simpl.
  - split; [lra|intros d []].
  - destruct (IH (py_max m e)) as [Hm Hl]. split.
    + eapply Rle_trans; [apply (py_max_ge_l m e)|exact Hm].
    + intros d [<-|Hd].
      * eapply Rle_trans; [apply (py_max_ge_r m e)|exact Hm].
      * apply Hl, Hd.
Qed.

Lemma fold_py_max_in (l : list R) (m : R) :
  fold_left py_max l m = m \/ In (fold_left py_max l m) l.
Proof.
  revert m. induction l as [|e l IH]; intros m; simpl.
  - left. reflexivity.
  - destruct (IH (py_max m e)) as [Heq|Hin].
    + rewrite Heq. unfold py_max. destruct (Rlt_dec m e); auto.
    + right. right. exact Hin.
Qed.

Lemma fold_left_nested {A B C : Type} (f : A -> C -> A) (g : B -> list C)
    (l : list B) (a : A) :
  fold_left (fun acc b => fold_left f (g b) acc) l a
  = fold_left f (flat_map g l) a.
Proof.
  revert a. induction l as [|b l IH]; intros a; simpl.
  - reflexivity.
  - rewrite fold_left_app. apply IH.
Qed.

Lemma max_distance_from_fold (coord0 : Coordinate) (rest : list Coordinate)
    (m : R) :
  max_distance_from coord0 rest m
  = fold_left py_max (map (get_distance coord0) rest) m.
Proof.
  unfold max_distance_from. revert m.
  induction rest as [|c rest IH]; intros m; simpl; [reflexivity|apply IH].
Qed.

(** [get_max_distance] is the running maximum, from 0, of the distances of
    the pairs. *)
Lemma get_max_distance_fold (coordinates : list Coordinate) :
  get_max_distance coordinates = fold_left py_max (pair_distances coordinates) 0.
Proof.
  unfold get_max_distance, pair_distances.
  rewrite <- fold_left_nested.
  generalize (enumerate (removelast coordinates)) as l. generalize 0 as m.
  intros m l. revert m.
  induction l as [|[i coord0] l IH]; intros m; simpl; [reflexivity|].
  rewrite max_distance_from_fold. apply IH.
Qed.

Lemma in_skipn {A : Type} (l : list A) (n : nat) (a : A) :
  In a (skipn n l) <-> exists j, (n <= j)%nat /\ nth_error l j = Some a.
Proof.
  split.
  - intros Ha. apply In_nth_error in Ha. destruct Ha as [k Hk].
    rewrite nth_error_skipn in Hk. exists (n + k)%nat. split; [lia|exact Hk].
  - intros (j & Hj & Ha). apply (nth_error_In _ (j - n)).
    rewrite nth_error_skipn. replace (n + (j - n))%nat with j by lia. exact Ha.
Qed.

(** The distances compared are those of the pairs [i < j] of the list. *)
Lemma in_pair_distances (coordinates : list Coordinate) (d : R) :
  In d (pair_distances coordinates)
  <-> exists i j coord_i coord_j,
        (i < j)%nat /\ nth_error coordinates i = Some coord_i
        /\ nth_error coordinates j = Some coord_j
        /\ d = get_distance coord_i coord_j.
Proof.
  unfold pair_distances.
  rewrite (enumerate_removelast coordinates (mkCoordinate 0 0)), flat_map_map'.
  rewrite in_flat_map. split.
  - intros (i & Hi & Hd). apply in_seq in Hi.
    apply in_map_iff in Hd. destruct Hd as (coord_j & <- & Hj).
    apply in_skipn in Hj. destruct Hj as (j & Hij & Hj).
    exists i, j, (nth i coordinates (mkCoordinate 0 0)), coord_j.
    split; [lia|]. split; [|split; [exact Hj|reflexivity]].
    apply nth_error_nth'. lia.
  - intros (i & j & coord_i & coord_j & Hij & Hi & Hj & ->).
    assert (Hjn : (j < length coordinates)%nat).
    { apply nth_error_Some. congruence. }
    exists i. split; [apply in_seq; lia|].
    rewrite (nth_error_nth _ _ _ Hi).
    apply in_map. apply in_skipn. exists j. split; [lia|exact Hj].
Qed.

(** No distance of two points of the list exceeds [get_max_distance]. *)
Lemma get_max_distance_bound (coordinates : list Coordinate) (a b : Coordinate) :
  In a coordinates -> In b coordinates ->
  get_distance a b <= get_max_distance coordinates.
Proof.
  intros Ha Hb.
  apply In_nth_error in Ha. destruct Ha as [i Hi].
  apply In_nth_error in Hb. destruct Hb as [j Hj].
  rewrite get_max_distance_fold.
  destruct (fold_py_max_ge (pair_distances coordinates) 0) as [H0 Hall].
  destruct (lt_eq_lt_dec i j) as [[Hlt|Heq]|Hgt].
  - apply Hall. apply in_pair_distances. exists i, j, a, b. auto.
  - subst j. assert (a = b) by congruence. subst b.
    rewrite get_distance_same. exact H0.
  - rewrite get_distance_sym. apply Hall. apply in_pair_distances.
    exists j, i, b, a. auto.
Qed.

(** [get_max_distance] is 0 or the distance of a pair of the list. *)
Lemma get_max_distance_attained (coordinates : list Coordinate) :
  get_max_distance coordinates = 0
  \/ exists i j coord_i coord_j,
       (i < j)%nat /\ nth_error coordinates i = Some coord_i
       /\ nth_error coordinates j = Some coord_j
       /\ get_max_distance coordinates = get_distance coord_i coord_j.
Proof.
  rewrite get_max_distance_fold.
  destruct (fold_py_max_in (pair_distances coordinates) 0) as [H0|Hin].
  - left. exact H0.
  - right. apply in_pair_distances in Hin. exact Hin.
Qed.

(** X3. [get_max_distance] bounds the distance of any two points of the
    list, in whatever order they are taken. *)
Theorem get_max_distance_upper_bound (coordinates : list Coordinate)
    (a b : Coordinate) :
  In a coordinates -> In b coordinates ->
  get_distance a b <= get_max_distance coordinates.
Proof. apply get_max_distance_bound. Qed.

(** X4. With at least two points, [get_max_distance] is the distance of
    some pair [i < j] of the list. *)
Theorem get_max_distance_is_a_distance (coordinates : list Coordinate) :
  (2 <= length coordinates)%nat ->
  exists i j coord_i coord_j,
    (i < j)%nat /\ nth_error coordinates i = Some coord_i
    /\ nth_error coordinates j = Some coord_j
    /\ get_max_distance coordinates = get_distance coord_i coord_j.
Proof.
  intros Hlen.
  destruct (get_max_distance_attained coordinates) as [H0|Hpair];
    [|exact Hpair].
  destruct coordinates as [|c0 [|c1 rest]]; simpl in Hlen; try lia.
  exists 0%nat, 1%nat, c0, c1.
  split; [lia|]. split; [reflexivity|]. split; [reflexivity|].
  rewrite H0. apply Rle_antisym.
  - apply get_distance_nonneg.
  - rewrite <- H0. apply get_max_distance_bound; simpl; auto.
Qed.

(** X5. With fewer than two points there is no pair: [get_max_distance] is
    0 and the scaling factor of [cluster_points] falls back to 1. *)
Theorem get_max_distance_no_pair (coordinates : list Coordinate) :
  (length coordinates <= 1)%nat ->
  get_max_distance coordinates = 0 /\ cluster_max_distance coordinates = 1.
Proof.
  intros Hlen.
  assert (H0 : get_max_distance coordinates = 0).
  { destruct coordinates as [|c0 [|c1 rest]]; simpl in Hlen; try lia;
      reflexivity. }
  split; [exact H0|].
  unfold cluster_max_distance. rewrite H0. unfold py_max.
  destruct (Rlt_dec 0 1); [reflexivity|lra].
Qed.

(** X6. [get_max_distance] depends only on which points are in the list,
    not on their order or on repetitions. *)
Theorem get_max_distance_same_points (l l' : list Coordinate) :
  (forall c, In c l <-> In c l') ->
  get_max_distance l = get_max_distance l'.
Proof.
  assert (Hle : forall l1 l2 : list Coordinate,
    (forall c, In c l1 -> In c l2) ->
    get_max_distance l1 <= get_max_distance l2).
  { intros l1 l2 Hsub.
    destruct (get_max_distance_attained l1)
      as [H0|(i & j & ci & cj & _ & Hi & Hj & Heq)].
    - rewrite H0. apply get_max_distance_nonneg.
    - rewrite Heq. apply get_max_distance_bound; apply Hsub;
        eapply nth_error_In; eassumption. }
  intros Hsame. apply Rle_antisym; apply Hle; intros c Hc; apply Hsame, Hc.
Qed.

(** * Further properties of the weights *)

Lemma tanh_exp (t : R) :
  tanh t = (exp t * exp t - 1) / (exp t * exp t + 1).
Proof.
  pose proof (exp_pos t) as Ht.
  unfold tanh, sinh, cosh. rewrite exp_Ropp. field.
  split; nra.
Qed.

Lemma tanh_le (s t : R) : s <= t -> tanh s <= tanh t.
Proof.
  intros Hst. rewrite !tanh_exp.
  pose proof (exp_pos s) as Hs. pose proof (exp_pos t) as Ht.
  assert (Hexp : exp s <= exp t).
  { destruct Hst as [Hlt| ->]; [left; apply exp_increasing; exact Hlt|lra]. }
  set (a := exp s) in *. set (b := exp t) in *. clearbody a b.
  assert (Hdiff : 0 <= (b * b - 1) / (b * b + 1) - (a * a - 1) / (a * a + 1));
    [|lra].
  replace ((b * b - 1) / (b * b + 1) - (a * a - 1) / (a * a + 1))
    with (2 * (b * b - a * a) / ((a * a + 1) * (b * b + 1)))
    by (field; split; nra).
  apply Rmult_le_pos; [nra|].
  left. apply Rinv_0_lt_compat. nra.
Qed.

Lemma tanh_0 : tanh 0 = 0.
Proof. unfold tanh. rewrite sinh_0. unfold Rdiv. ring. Qed.

Lemma tanh_lt_1 (t : R) : tanh t < 1.
Proof.
  rewrite tanh_exp. pose proof (exp_pos t) as Ht.
  set (a := exp t) in *. clearbody a.
  assert (Hdiff : 0 < 1 - (a * a - 1) / (a * a + 1)); [|lra].
  replace (1 - (a * a - 1) / (a * a + 1)) with (2 / (a * a + 1))
    by (field; nra).
  apply Rdiv_lt_0_compat; nra.
Qed.

(** The distance of two points of the list, rescaled, lies between 0 and 1. *)
Lemma rescaled_distance_bounds (coordinates : list Coordinate) (a b : Coordinate) :
  In a coordinates -> In b coordinates ->
  0 <= get_distance a b / cluster_max_distance coordinates <= 1.
Proof.
  intros Ha Hb.
  pose proof (get_max_distance_bound coordinates a b Ha Hb) as Hbound.
  pose proof (get_distance_nonneg a b) as Hpos.
  assert (Hmd : 1 <= cluster_max_distance coordinates) by apply py_max_ge_r.
  assert (Hle : get_max_distance coordinates <= cluster_max_distance coordinates)
    by apply py_max_ge_l.
  split.
  - apply Rmult_le_pos; [exact Hpos|]. left. apply Rinv_0_lt_compat. lra.
  - apply Rmult_le_reg_r with (cluster_max_distance coordinates); [lra|].
    unfold Rdiv. rewrite Rmult_assoc, Rinv_l by lra. lra.
Qed.

Lemma rescaled_distance_le (coordinates : list Coordinate) (a b c d : Coordinate) :
  get_distance a b <= get_distance c d ->
  get_distance a b / cluster_max_distance coordinates
  <= get_distance c d / cluster_max_distance coordinates.
Proof.
  intros Hle.
  assert (Hmd : 1 <= cluster_max_distance coordinates) by apply py_max_ge_r.
  apply Rmult_le_compat_r; [|exact Hle].
  left. apply Rinv_0_lt_compat. lra.
Qed.

(** X7. In [cluster_points] the rescaled distance [d] of any two points of
    the input lies between 0 and 1. *)
Theorem rescaled_distance_in_unit_interval (scattered_points : list (R * R))
    (a b : Coordinate) :
  let coordinates := to_coordinates scattered_points in
  In a coordinates -> In b coordinates ->
  0 <= get_distance a b / cluster_max_distance coordinates <= 1.
Proof. intros coordinates. apply rescaled_distance_bounds. Qed.

Lemma expected_bias_same (ci cj : Coordinate) (max_distance : R) (c : nat) :
  expected_bias ci cj max_distance c c
  = - cos (get_distance ci cj / max_distance * PI).
Proof. unfold expected_bias. rewrite Nat.eqb_refl. reflexivity. Qed.

Lemma expected_bias_different (ci cj : Coordinate) (max_distance : R) (c0 c1 : nat) :
  c0 <> c1 ->
  expected_bias ci cj max_distance c0 c1
  = - tanh (sqrt (get_distance ci cj / max_distance)) * 0.1.
Proof.
  intros Hne. unfold expected_bias.
  destruct (Nat.eqb_spec c0 c1); [contradiction|reflexivity].
Qed.

(** X8. Same-colour biases grow with the distance: of two pairs of points,
    the pair that is no farther apart gets the bias that is no larger, and
    every same-colour bias lies between -1 and 1.  So the nearer two points
    are, the more the model rewards giving them the same category. *)
Theorem same_color_bias_monotone (scattered_points : list (R * R))
    (i j k l c c' : nat) (coord_i coord_j coord_k coord_l : Coordinate) :
  let coordinates := to_coordinates scattered_points in
  let dqm := build_dqm scattered_points in
  nth_error coordinates i = Some coord_i ->
  nth_error coordinates j = Some coord_j ->
  nth_error coordinates k = Some coord_k ->
  nth_error coordinates l = Some coord_l ->
  (i < j)%nat -> (k < l)%nat -> (c < 3)%nat -> (c' < 3)%nat ->
  get_distance coord_i coord_j <= get_distance coord_k coord_l ->
  exists w1 w2,
    get_quadratic_case i c j c dqm = Some w1
    /\ get_quadratic_case k c' l c' dqm = Some w2
    /\ -1 <= w1 /\ w1 <= w2 /\ w2 <= 1.
Proof.
  intros coordinates dqm Hi Hj Hk Hl Hij Hkl Hc Hc' Hle.
  unfold dqm.
  rewrite (get_quadratic_case_build scattered_points i j c c coord_i coord_j)
    by assumption.
  rewrite (get_quadratic_case_build scattered_points k l c' c' coord_k coord_l)
    by assumption.
  fold coordinates. rewrite !expected_bias_same.
  do 2 eexists. split; [reflexivity|]. split; [reflexivity|].
  pose proof (rescaled_distance_bounds coordinates coord_i coord_j
                (nth_error_In _ _ Hi) (nth_error_In _ _ Hj)) as [B1 B2].
  pose proof (rescaled_distance_bounds coordinates coord_k coord_l
                (nth_error_In _ _ Hk) (nth_error_In _ _ Hl)) as [B3 B4].
  pose proof (rescaled_distance_le coordinates _ _ _ _ Hle) as Hd.
  pose proof PI_RGT_0 as Hpi.
  set (d1 := get_distance coord_i coord_j / cluster_max_distance coordinates) in *.
  set (d2 := get_distance coord_k coord_l / cluster_max_distance coordinates) in *.
  pose proof (COS_bound (d1 * PI)) as [C1 C2].
  pose proof (COS_bound (d2 * PI)) as [C3 C4].
  assert (Hcos : cos (d2 * PI) <= cos (d1 * PI)).
  { apply cos_decr_1; nra. }
  lra.
Qed.

(** X9. Different-colour biases shrink with the distance: of two pairs of
    points, the pair that is no farther apart gets the bias that is no
    smaller, and every different-colour bias lies in (-0.1, 0].  So the
    farther two points are, the more the model rewards giving them different
    categories, by less than 0.1. *)
Theorem different_color_bias_monotone (scattered_points : list (R * R))
    (i j k l c0 c1 c0' c1' : nat) (coord_i coord_j coord_k coord_l : Coordinate) :
  let coordinates := to_coordinates scattered_points in
  let dqm := build_dqm scattered_points in
  nth_error coordinates i = Some coord_i ->
  nth_error coordinates j = Some coord_j ->
  nth_error coordinates k = Some coord_k ->
  nth_error coordinates l = Some coord_l ->
  (i < j)%nat -> (k < l)%nat ->
  (c0 < 3)%nat -> (c1 < 3)%nat -> c0 <> c1 ->
  (c0' < 3)%nat -> (c1' < 3)%nat -> c0' <> c1' ->
  get_distance coord_i coord_j <= get_distance coord_k coord_l ->
  exists w1 w2,
    get_quadratic_case i c0 j c1 dqm = Some w1
    /\ get_quadratic_case k c0' l c1' dqm = Some w2
    /\ -0.1 < w2 /\ w2 <= w1 /\ w1 <= 0.
Proof.
  intros coordinates dqm Hi Hj Hk Hl Hij Hkl H0 H1 Hne H0' H1' Hne' Hle.
  unfold dqm.
  rewrite (get_quadratic_case_build scattered_points i j c0 c1 coord_i coord_j)
    by assumption.
  rewrite (get_quadratic_case_build scattered_points k l c0' c1' coord_k coord_l)
    by assumption.
  fold coordinates. rewrite !expected_bias_different by assumption.
  do 2 eexists. split; [reflexivity|]. split; [reflexivity|].
  pose proof (rescaled_distance_bounds coordinates coord_i coord_j
                (nth_error_In _ _ Hi) (nth_error_In _ _ Hj)) as [B1 B2].
  pose proof (rescaled_distance_le coordinates _ _ _ _ Hle) as Hd.
  set (d1 := get_distance coord_i coord_j / cluster_max_distance coordinates) in *.
  set (d2 := get_distance coord_k coord_l / cluster_max_distance coordinates) in *.
  pose proof (sqrt_pos d1) as S1.
  pose proof (sqrt_le_1_alt d1 d2 Hd) as S12.
  pose proof (tanh_le 0 (sqrt d1) S1) as T1. rewrite tanh_0 in T1.
  pose proof (tanh_le (sqrt d1) (sqrt d2) S12) as T12.
  pose proof (tanh_lt_1 (sqrt d2)) as T2.
  lra.
Qed.

(** X10. The two ends of the scale.  Two points at the same place get the
    same-colour bias -1 and the different-colour bias 0; two points at the
    largest distance of the list, when that distance is at least 1, get the
    same-colour bias 1. *)
Theorem biases_at_the_ends (scattered_points : list (R * R)) (i j c0 c1 : nat)
    (coord_i coord_j : Coordinate) :
  let coordinates := to_coordinates scattered_points in
  let dqm := build_dqm scattered_points in
  nth_error coordinates i = Some coord_i ->
  nth_error coordinates j = Some coord_j ->
  (i < j)%nat -> (c0 < 3)%nat -> (c1 < 3)%nat -> c0 <> c1 ->
  (coord_i = coord_j ->
   get_quadratic_case i c0 j c0 dqm = Some (-1)
   /\ get_quadratic_case i c0 j c1 dqm = Some 0)
  /\
  (get_distance coord_i coord_j = get_max_distance coordinates ->
   1 <= get_max_distance coordinates ->
   get_quadratic_case i c0 j c0 dqm = Some 1).
Proof.
  intros coordinates dqm Hi Hj Hij H0 H1 Hne. unfold dqm.
  rewrite (get_quadratic_case_build scattered_points i j c0 c0 coord_i coord_j)
    by assumption.
  rewrite (get_quadratic_case_build scattered_points i j c0 c1 coord_i coord_j)
    by assumption.
  fold coordinates.
  rewrite expected_bias_same, expected_bias_different by assumption.
  assert (Hmd : 1 <= cluster_max_distance coordinates) by apply py_max_ge_r.
  split.
  - intros <-. rewrite get_distance_same.
    replace (0 / cluster_max_distance coordinates) with 0
      by (unfold Rdiv; ring).
    rewrite Rmult_0_l, cos_0, sqrt_0, tanh_0.
    split; f_equal; lra.
  - intros Hfar Hone. f_equal.
    assert (Hcmd : cluster_max_distance coordinates = get_max_distance coordinates).
    { unfold cluster_max_distance, py_max.
      destruct (Rlt_dec (get_max_distance coordinates) 1); [lra|reflexivity]. }
    rewrite Hfar, Hcmd.
    replace (get_max_distance coordinates / get_max_distance coordinates) with 1
      by (field; lra).
    rewrite Rmult_1_l, cos_PI. lra.
Qed.

(** * Further properties of the model *)

Lemma same_color_entries_in_range (i j : nat) (w : R) (e : interaction * R) :
  In e (same_color_entries i j w) ->
  exists uc vc, fst e = (i, uc, j, vc) /\ (uc < 3)%nat /\ (vc < 3)%nat.
Proof.
  unfold same_color_entries. simpl.
  intros [<-|[<-|[<-|[]]]]; simpl; do 2 eexists;
    (split; [reflexivity|split; lia]).
Qed.

Lemma different_color_entries_in_range (i j : nat) (w : R) (e : interaction * R) :
  In e (different_color_entries i j w) ->
  exists uc vc, fst e = (i, uc, j, vc) /\ (uc < 3)%nat /\ (vc < 3)%nat.
Proof.
  unfold different_color_entries. simpl.
  intros [<-|[<-|[<-|[<-|[<-|[<-|[]]]]]]]; simpl; do 2 eexists;
    (split; [reflexivity|split; lia]).
Qed.

Lemma over_pairs_in_range (coordinates : list Coordinate)
    (entries : nat -> nat -> Coordinate -> Coordinate -> list (interaction * R))
    (e : interaction * R) :
  (forall i j a b e', In e' (entries i j a b) ->
     exists uc vc, fst e' = (i, uc, j, vc) /\ (uc < 3)%nat /\ (vc < 3)%nat) ->
  In e (over_pairs coordinates entries) ->
  exists u uc v vc,
    fst e = (u, uc, v, vc) /\ (u < v < length coordinates)%nat
    /\ (uc < 3)%nat /\ (vc < 3)%nat.
Proof.
  intros Hentries He. unfold over_pairs in He.
  apply in_flat_map in He. destruct He as ([i coord0] & _ & He).
  apply in_flat_map in He. destruct He as (j & Hj & He).
  unfold range in Hj. apply in_seq in Hj.
  destruct (Hentries _ _ _ _ _ He) as (uc & vc & Hk & Huc & Hvc).
  exists i, uc, j, vc. repeat split; try assumption; lia.
Qed.

(** Every bias of the built model is between two points [u < v] of the
    input and two categories below 3. *)
Lemma build_dqm_in_range (scattered_points : list (R * R)) (e : interaction * R) :
  In e (quadratic (build_dqm scattered_points)) ->
  exists u uc v vc,
    fst e = (u, uc, v, vc) /\ (u < v < length scattered_points)%nat
    /\ (uc < 3)%nat /\ (vc < 3)%nat.
Proof.
  rewrite build_dqm_spec. simpl quadratic. intros He.
  replace (length scattered_points)
    with (length (to_coordinates scattered_points))
    by (unfold to_coordinates; apply length_map).
  apply in_app_or in He. destruct He as [He|He].
  - apply (over_pairs_in_range _ _ e) in He; [exact He|].
    intros i j a b e'. apply same_color_entries_in_range.
  - apply (over_pairs_in_range _ _ e) in He; [exact He|].
    intros i j a b e'. apply different_color_entries_in_range.
Qed.

(** X11. Every call of [set_quadratic_case] in [cluster_points] is between
    two different variables the model has, the first added before the
    second, and names cases these variables have: no bias of a variable with
    itself, none for a missing variable or case. *)
Theorem set_quadratic_case_calls_valid (scattered_points : list (R * R))
    (u u_case v v_case : nat) (bias : R) :
  let dqm := build_dqm scattered_points in
  In ((u, u_case, v, v_case), bias) (quadratic dqm) ->
  (u < v)%nat
  /\ (exists cases_u,
        nth_error (variables dqm) u = Some cases_u /\ (u_case < cases_u)%nat)
  /\ (exists cases_v,
        nth_error (variables dqm) v = Some cases_v /\ (v_case < cases_v)%nat).
Proof.
  intros dqm He. unfold dqm in *.
  apply build_dqm_in_range in He.
  destruct He as (u' & uc' & v' & vc' & Hk & Huv & Huc & Hvc).
  simpl in Hk. inversion Hk; subst u' uc' v' vc'.
  rewrite variables_build.
  split; [lia|].
  split; exists 3%nat; (split; [apply nth_error_repeat; lia|assumption]).
Qed.

Lemma biases_set_out_of_range (scattered_points : list (R * R))
    (u uc v vc : nat) :
  ~ ((u < v < length scattered_points)%nat /\ (uc < 3)%nat /\ (vc < 3)%nat) ->
  biases_set (u, uc, v, vc) (build_dqm scattered_points) = [].
Proof.
  intros Hout. unfold biases_set.
  rewrite filter_picks_nil; [reflexivity|].
  intros e He Hk. apply build_dqm_in_range in He.
  destruct He as (u' & uc' & v' & vc' & Hfst & Huv & Huc & Hvc).
  rewrite Hfst in Hk. inversion Hk; subst. apply Hout. auto.
Qed.

Lemma in_range_dec (n u uc v vc : nat) :
  {(u < v < n)%nat /\ (uc < 3)%nat /\ (vc < 3)%nat}
  + {~ ((u < v < n)%nat /\ (uc < 3)%nat /\ (vc < 3)%nat)}.
Proof.
  destruct (lt_dec u v), (lt_dec v n), (lt_dec uc 3), (lt_dec vc 3);
    try (left; lia); right; lia.
Qed.

(** X12. No bias is set twice: for every interaction whatever, the model
    holds at most one bias, and it holds one exactly for the interactions
    [(u, u_case, v, v_case)] with [u < v] two points of the input and both
    cases below 3. *)
Theorem biases_set_at_most_once (scattered_points : list (R * R))
    (u u_case v v_case : nat) :
  let dqm := build_dqm scattered_points in
  (length (biases_set (u, u_case, v, v_case) dqm) <= 1)%nat
  /\ (get_quadratic_case u u_case v v_case dqm <> None
      <-> (u < v < length scattered_points)%nat
          /\ (u_case < 3)%nat /\ (v_case < 3)%nat).
Proof.
  intros dqm. unfold dqm.
  destruct (in_range_dec (length scattered_points) u u_case v v_case)
    as [Hin|Hout].
  - destruct Hin as (Huv & Huc & Hvc).
    assert (Hlen : length (to_coordinates scattered_points)
                   = length scattered_points)
      by (unfold to_coordinates; apply length_map).
    destruct (nth_error (to_coordinates scattered_points) u) as [cu|] eqn:Hu.
    2:{ apply nth_error_None in Hu. lia. }
    destruct (nth_error (to_coordinates scattered_points) v) as [cv|] eqn:Hv.
    2:{ apply nth_error_None in Hv. lia. }
    unfold get_quadratic_case.
    rewrite (biases_set_build scattered_points u v u_case v_case cu cv)
      by (assumption || lia).
    simpl. split; [lia|]. split; [auto|intros _; discriminate].
  - unfold get_quadratic_case.
    rewrite (biases_set_out_of_range _ _ _ _ _ Hout). simpl.
    split; [lia|]. split; [intros H; contradiction|intros H; contradiction].
Qed.

Lemma length_flat_map_const {A B : Type} (f : A -> list B) (c : nat) (l : list A) :
  (forall a, length (f a) = c) ->
  length (flat_map f l) = (c * length l)%nat.
Proof.
  intros Hc. induction l as [|a l IH]; simpl; [lia|].
  rewrite length_app, IH, Hc. lia.
Qed.

(** A triangular loop: pass [i] contributes [c] items for every [j] from
    [i + 1] to [n - 1]. *)
Lemma length_triangle {B : Type} (F : nat -> list B) (n c : nat) :
  (forall i, length (F i) = (c * (n - (i + 1)))%nat) ->
  forall m, (m + 1 <= n)%nat ->
    (2 * length (flat_map F (seq 0 m)) = c * (m * (2 * n - m - 1)))%nat.
Proof.
  intros HF. induction m as [|m IH]; intros Hm; [simpl; lia|].
  rewrite seq_S, flat_map_app, length_app. simpl flat_map.
  rewrite app_nil_r, HF.
  specialize (IH ltac:(lia)).
  assert (Hr : exists r, n = (m + 2 + r)%nat) by (exists (n - m - 2)%nat; lia).
  destruct Hr as [r ->].
  replace (m + 2 + r - (m + 1))%nat with (r + 1)%nat by lia.
  replace (2 * (m + 2 + r) - m - 1)%nat with (m + 3 + 2 * r)%nat in IH by lia.
  replace (2 * (m + 2 + r) - S m - 1)%nat with (m + 2 + 2 * r)%nat by lia.
  nia.
Qed.

Lemma length_over_pairs (coordinates : list Coordinate)
    (entries : nat -> nat -> Coordinate -> Coordinate -> list (interaction * R))
    (c : nat) :
  (forall i j a b, length (entries i j a b) = c) ->
  (2 * length (over_pairs coordinates entries)
   = c * (length coordinates * (length coordinates - 1)))%nat.
Proof.
  intros Hc. unfold over_pairs.
  rewrite (enumerate_removelast coordinates (mkCoordinate 0 0)), flat_map_map'.
  set (n := length coordinates).
  destruct (Nat.eq_dec n 0) as [H0|Hpos].
  - rewrite H0. simpl. lia.
  - rewrite (length_triangle _ n c).
    + replace (2 * n - (n - 1) - 1)%nat with n by lia. f_equal. lia.
    + intros i. rewrite (length_flat_map_const _ c) by (intros j; apply Hc).
      unfold range. rewrite length_seq. reflexivity.
    + lia.
Qed.

(** X13. For [n] points the model has [n] variables and [9 * n * (n-1) / 2]
    quadratic biases: nine for each pair of points. *)
Theorem model_size (scattered_points : list (R * R)) :
  let n := length scattered_points in
  let dqm := build_dqm scattered_points in
  length (variables dqm) = n
  /\ (2 * length (quadratic dqm) = 9 * (n * (n - 1)))%nat.
Proof.
  intros n dqm. unfold dqm, n. rewrite build_dqm_spec.
  cbn [variables quadratic].
  split; [apply repeat_length|].
  assert (Hlen : length (to_coordinates scattered_points)
                 = length scattered_points)
    by (unfold to_coordinates; apply length_map).
  rewrite length_app.
  pose proof (length_over_pairs (to_coordinates scattered_points)
    (fun i j coord0 coord1 =>
       same_color_entries i j
         (same_color_weight coord0 coord1
            (cluster_max_distance (to_coordinates scattered_points))))
    3 (fun _ _ _ _ => eq_refl)) as Hs.
  pose proof (length_over_pairs (to_coordinates scattered_points)
    (fun i j coord0 coord1 =>
       different_color_entries i j
         (different_color_weight coord0 coord1
            (cluster_max_distance (to_coordinates scattered_points))))
    6 (fun _ _ _ _ => eq_refl)) as Hd.
  rewrite Hlen in Hs, Hd. lia.
Qed.

(** X14. With fewer than two points no bias is set at all; the model, its
    variables only, is still the one handed to the sampler. *)
Theorem fewer_than_two_points {Groupings : Type}
    (get_groupings : Sample -> list Coordinate -> Groupings) (leap : Leap)
    (scattered_points : list (R * R)) (filename : string)
    (problem_inspector : bool) :
  (length scattered_points <= 1)%nat ->
  build_dqm scattered_points = mkDQM (repeat 3%nat (length scattered_points)) []
  /\ (LeapHybridDQMSampler leap = Ok tt ->
      submissions
        (trace (cluster_points get_groupings leap scattered_points filename
                  problem_inspector))
      = [mkDQM (repeat 3%nat (length scattered_points)) []]).
Proof.
  intros Hlen.
  assert (Hdqm : build_dqm scattered_points
                 = mkDQM (repeat 3%nat (length scattered_points)) []).
  { destruct scattered_points as [|[px py] [|q rest]]; simpl in Hlen; try lia;
      reflexivity. }
  split; [exact Hdqm|].
  intros Hnew. rewrite cluster_points_run, Hnew, Hdqm.
  destruct (sample_dqm leap _) as [sampleset|e]; [|reflexivity].
  destruct (first_sample sampleset) as [best_sample|e]; reflexivity.
Qed.

(** * What the model depends on *)

Lemma flat_map_ext_in' {A B : Type} (f g : A -> list B) (l : list A) :
  (forall a, In a l -> f a = g a) -> flat_map f l = flat_map g l.
Proof.
  induction l as [|a l IH]; intros H; simpl; [reflexivity|].
  rewrite (H a) by (left; reflexivity).
  rewrite IH; [reflexivity|]. intros b Hb. apply H. right. exact Hb.
Qed.

(** Two lists of the same length, whose loop bodies agree on every pair
    [i < j], give the same biases. *)
Lemma over_pairs_ext (l l' : list Coordinate)
    (entries entries' : nat -> nat -> Coordinate -> Coordinate
                        -> list (interaction * R)) :
  length l = length l' ->
  (forall i j ci cj ci' cj', (i < j)%nat ->
     nth_error l i = Some ci -> nth_error l j = Some cj ->
     nth_error l' i = Some ci' -> nth_error l' j = Some cj' ->
     entries i j ci cj = entries' i j ci' cj') ->
  over_pairs l entries = over_pairs l' entries'.
Proof.
  intros Hlen Hsame. unfold over_pairs.
  rewrite (enumerate_removelast l (mkCoordinate 0 0)).
  rewrite (enumerate_removelast l' (mkCoordinate 0 0)).
  rewrite !flat_map_map', <- Hlen.
  apply flat_map_ext_in'. intros i Hi. apply in_seq in Hi.
  apply flat_map_ext_in'. intros j Hj. unfold range in Hj. apply in_seq in Hj.
  apply Hsame.
  - lia.
  - apply nth_error_nth'. lia.
  - apply nth_error_nth'. lia.
  - apply nth_error_nth'. lia.
  - apply nth_error_nth'. lia.
Qed.

(** The model is a function of the number of points and of the rescaled
    distances of the pairs. *)
Lemma build_dqm_by_ratio (points points' : list (R * R)) :
  length points = length points' ->
  (forall i j ci cj ci' cj', (i < j)%nat ->
     nth_error (to_coordinates points) i = Some ci ->
     nth_error (to_coordinates points) j = Some cj ->
     nth_error (to_coordinates points') i = Some ci' ->
     nth_error (to_coordinates points') j = Some cj' ->
     get_distance ci cj / cluster_max_distance (to_coordinates points)
     = get_distance ci' cj' / cluster_max_distance (to_coordinates points')) ->
  build_dqm points = build_dqm points'.
Proof.
  intros Hlen Hratio.
  assert (Hlen' : length (to_coordinates points)
                  = length (to_coordinates points'))
    by (unfold to_coordinates; rewrite !length_map; exact Hlen).
  rewrite !build_dqm_spec. rewrite Hlen. f_equal. f_equal.
  - apply over_pairs_ext; [exact Hlen'|].
    intros i j ci cj ci' cj' Hij Hi Hj Hi' Hj'.
    unfold same_color_weight.
    rewrite (Hratio i j ci cj ci' cj') by assumption. reflexivity.
  - apply over_pairs_ext; [exact Hlen'|].
    intros i j ci cj ci' cj' Hij Hi Hj Hi' Hj'.
    unfold different_color_weight.
    rewrite (Hratio i j ci cj ci' cj') by assumption. reflexivity.
Qed.

(** If every distance of one list is [k] times the distance at the same
    indices of another, so is the largest. *)
Lemma get_max_distance_scaled (l l' : list Coordinate) (k : R) :
  0 <= k ->
  length l = length l' ->
  (forall i j ci cj ci' cj', (i < j)%nat ->
     nth_error l i = Some ci -> nth_error l j = Some cj ->
     nth_error l' i = Some ci' -> nth_error l' j = Some cj' ->
     get_distance ci' cj' = k * get_distance ci cj) ->
  get_max_distance l' = k * get_max_distance l.
Proof.
  intros Hk Hlen Hdist.
  pose proof (get_max_distance_nonneg l) as Hg.
  pose proof (get_max_distance_nonneg l') as Hg'.
  apply Rle_antisym.
  - destruct (get_max_distance_attained l')
      as [H0|(i & j & ci' & cj' & Hij & Hi' & Hj' & Heq)].
    + rewrite H0. apply Rmult_le_pos; assumption.
    + destruct (nth_error l i) as [ci|] eqn:Hi.
      2:{ apply nth_error_None in Hi.
          assert (i < length l')%nat by (apply nth_error_Some; congruence).
          lia. }
      destruct (nth_error l j) as [cj|] eqn:Hj.
      2:{ apply nth_error_None in Hj.
          assert (j < length l')%nat by (apply nth_error_Some; congruence).
          lia. }
      rewrite Heq, (Hdist i j ci cj ci' cj') by assumption.
      apply Rmult_le_compat_l; [exact Hk|].
      apply get_max_distance_bound; eapply nth_error_In; eassumption.
  - destruct (get_max_distance_attained l)
      as [H0|(i & j & ci & cj & Hij & Hi & Hj & Heq)].
    + rewrite H0, Rmult_0_r. exact Hg'.
    + destruct (nth_error l' i) as [ci'|] eqn:Hi'.
      2:{ apply nth_error_None in Hi'.
          assert (i < length l)%nat by (apply nth_error_Some; congruence).
          lia. }
      destruct (nth_error l' j) as [cj'|] eqn:Hj'.
      2:{ apply nth_error_None in Hj'.
          assert (j < length l)%nat by (apply nth_error_Some; congruence).
          lia. }
      rewrite Heq, <- (Hdist i j ci cj ci' cj') by assumption.
      apply get_max_distance_bound; eapply nth_error_In; eassumption.
Qed.

Lemma build_dqm_same_distances (points points' : list (R * R)) :
  length points = length points' ->
  (forall i j ci cj ci' cj', (i < j)%nat ->
     nth_error (to_coordinates points) i = Some ci ->
     nth_error (to_coordinates points) j = Some cj ->
     nth_error (to_coordinates points') i = Some ci' ->
     nth_error (to_coordinates points') j = Some cj' ->
     get_distance ci' cj' = get_distance ci cj) ->
  build_dqm points = build_dqm points'.
Proof.
  intros Hlen Hdist.
  assert (Hlen' : length (to_coordinates points)
                  = length (to_coordinates points'))
    by (unfold to_coordinates; rewrite !length_map; exact Hlen).
  assert (Hmax : get_max_distance (to_coordinates points')
                 = get_max_distance (to_coordinates points)).
  { rewrite (get_max_distance_scaled (to_coordinates points)
               (to_coordinates points') 1); [lra|lra|exact Hlen'|].
    intros i j ci cj ci' cj' Hij Hi Hj Hi' Hj'.
    rewrite (Hdist i j ci cj ci' cj') by assumption. lra. }
  apply build_dqm_by_ratio; [exact Hlen|].
  intros i j ci cj ci' cj' Hij Hi Hj Hi' Hj'.
  unfold cluster_max_distance. rewrite Hmax.
  rewrite (Hdist i j ci cj ci' cj') by assumption. reflexivity.
Qed.

(** X15. The model depends on the points only through their number and
    their mutual distances: two inputs of the same length whose points are
    pairwise the same distance apart give the very same model. *)
Theorem model_depends_on_distances_only (points points' : list (R * R)) :
  length points = length points' ->
  (forall i j ci cj ci' cj', (i < j)%nat ->
     nth_error (to_coordinates points) i = Some ci ->
     nth_error (to_coordinates points) j = Some cj ->
     nth_error (to_coordinates points') i = Some ci' ->
     nth_error (to_coordinates points') j = Some cj' ->
     get_distance ci' cj' = get_distance ci cj) ->
  build_dqm points = build_dqm points'.
Proof. apply build_dqm_same_distances. Qed.









(** * The further properties on concrete inputs *)

Lemma one_le_sqrt_20 : 1 <= sqrt 20.
Proof. rewrite <- sqrt_1 at 1. apply sqrt_le_1_alt. lra. Qed.

Lemma first_pair_nearer_than_far_pair :
  get_distance (mkCoordinate 0 0) (mkCoordinate 1 1)
  <= get_distance (mkCoordinate 0 0) (mkCoordinate 2 4).
Proof. unfold get_distance. simpl. apply sqrt_le_1_alt. lra. Qed.

(** X3 on the four points. *)
Lemma get_max_distance_upper_bound_witness :
  get_distance (mkCoordinate 1 1) (mkCoordinate 0 0)
  <= get_max_distance (to_coordinates scattered_points).
Proof.
  apply (get_max_distance_upper_bound (to_coordinates scattered_points)
           (mkCoordinate 1 1) (mkCoordinate 0 0)); simpl; auto.
Defined.

(** X4 on the four points. *)
Lemma get_max_distance_is_a_distance_witness :
  exists i j coord_i coord_j,
    (i < j)%nat
    /\ nth_error (to_coordinates scattered_points) i = Some coord_i
    /\ nth_error (to_coordinates scattered_points) j = Some coord_j
    /\ get_max_distance (to_coordinates scattered_points)
       = get_distance coord_i coord_j.
Proof.
  apply (get_max_distance_is_a_distance (to_coordinates scattered_points)).
  simpl. lia.
Defined.

(** X5 on a single point. *)
Lemma get_max_distance_no_pair_witness :
  get_max_distance [mkCoordinate 3 4] = 0
  /\ cluster_max_distance [mkCoordinate 3 4] = 1.
Proof.
  apply (get_max_distance_no_pair [mkCoordinate 3 4]). simpl. lia.
Defined.

(** X6 on two points, reordered and one repeated. *)
Lemma get_max_distance_same_points_witness :
  get_max_distance [mkCoordinate 0 0; mkCoordinate 3 4]
  = get_max_distance [mkCoordinate 3 4; mkCoordinate 0 0; mkCoordinate 3 4].
Proof.
  apply (get_max_distance_same_points
           [mkCoordinate 0 0; mkCoordinate 3 4]
           [mkCoordinate 3 4; mkCoordinate 0 0; mkCoordinate 3 4]).
  intros c. simpl. tauto.
Defined.

(** X7 on the four points. *)
Lemma rescaled_distance_in_unit_interval_witness :
  0 <= get_distance (mkCoordinate 2 4) (mkCoordinate 3 2)
       / cluster_max_distance (to_coordinates scattered_points) <= 1.
Proof.
  apply (rescaled_distance_in_unit_interval scattered_points
           (mkCoordinate 2 4) (mkCoordinate 3 2)); simpl; auto.
Defined.

(** X8 on the four points: the pair (0, 1) is nearer than the pair (0, 2). *)
Lemma same_color_bias_monotone_witness :
  exists w1 w2,
    get_quadratic_case 0 0 1 0 (build_dqm scattered_points) = Some w1
    /\ get_quadratic_case 0 2 2 2 (build_dqm scattered_points) = Some w2
    /\ -1 <= w1 /\ w1 <= w2 /\ w2 <= 1.
Proof.
  apply (same_color_bias_monotone scattered_points 0 1 0 2 0 2
           (mkCoordinate 0 0) (mkCoordinate 1 1)
           (mkCoordinate 0 0) (mkCoordinate 2 4));
    try reflexivity; try lia.
  exact first_pair_nearer_than_far_pair.
Defined.

(** X9 on the four points, same pairs. *)
Lemma different_color_bias_monotone_witness :
  exists w1 w2,
    get_quadratic_case 0 0 1 1 (build_dqm scattered_points) = Some w1
    /\ get_quadratic_case 0 2 2 0 (build_dqm scattered_points) = Some w2
    /\ -0.1 < w2 /\ w2 <= w1 /\ w1 <= 0.
Proof.
  apply (different_color_bias_monotone scattered_points 0 1 0 2 0 1 2 0
           (mkCoordinate 0 0) (mkCoordinate 1 1)
           (mkCoordinate 0 0) (mkCoordinate 2 4));
    try reflexivity; try lia.
  exact first_pair_nearer_than_far_pair.
Defined.

(** X10 on the four points: the first and the third are the farthest
    apart. *)
Lemma biases_at_the_ends_witness :
  get_quadratic_case 0 1 2 1 (build_dqm scattered_points) = Some 1.
Proof.
  destruct (biases_at_the_ends scattered_points 0 2 1 0
              (mkCoordinate 0 0) (mkCoordinate 2 4)) as [_ Hfar];
    try reflexivity; try lia.
  apply Hfar.
  - rewrite get_max_distance_four_points.
    unfold get_distance. simpl. f_equal. lra.
  - rewrite get_max_distance_four_points. exact one_le_sqrt_20.
Defined.

(** X11 on two points: the first bias set. *)
Lemma set_quadratic_case_calls_valid_witness :
  (0 < 1)%nat
  /\ (exists cases_u,
        nth_error (variables (build_dqm [(0, 0); (3, 4)])) 0 = Some cases_u
        /\ (0 < cases_u)%nat)
  /\ (exists cases_v,
        nth_error (variables (build_dqm [(0, 0); (3, 4)])) 1 = Some cases_v
        /\ (0 < cases_v)%nat).
Proof.
  apply (set_quadratic_case_calls_valid [(0, 0); (3, 4)] 0 0 1 0
           (- cos (get_distance (mkCoordinate 0 0) (mkCoordinate 3 4)
                   / cluster_max_distance [mkCoordinate 0 0; mkCoordinate 3 4]
                   * PI))).
  left. reflexivity.
Defined.

(** X14 on a single point, with a service that answers. *)
Lemma fewer_than_two_points_witness :
  build_dqm [(5, 7)] = mkDQM [3%nat] []
  /\ submissions
       (trace (cluster_points categories leap_ok [(5, 7)]
                 "four_points_clustered.png" true))
     = [mkDQM [3%nat] []].
Proof.
  destruct (fewer_than_two_points categories leap_ok [(5, 7)]
              "four_points_clustered.png" true) as [Hdqm Hsub].
  - simpl. lia.
  - split; [exact Hdqm|]. apply Hsub. reflexivity.
Defined.

(** X15 on two points and the same two points moved by (1, 1). *)
Lemma model_depends_on_distances_only_witness :
  build_dqm [(0, 0); (3, 4)] = build_dqm [(1, 1); (4, 5)].
Proof.
  apply (model_depends_on_distances_only [(0, 0); (3, 4)] [(1, 1); (4, 5)]).
  - reflexivity.
  - intros i j ci cj ci' cj' Hij Hi Hj Hi' Hj'.
    destruct i as [|[|[|i]]]; destruct j as [|[|[|j]]];
      simpl in Hi, Hj, Hi', Hj'; try lia; try discriminate.
    inversion Hi; inversion Hj; inversion Hi'; inversion Hj'; subst.
    unfold get_distance. simpl. f_equal. lra.
Defined.

